(** * Quotation service: a model of [app.py] and its route contracts

    The service exposes two tables, quotes and persons, behind
    permission-checked routes.  The views of [app.py] are embedded as
    computations in a small state-and-exception monad over the database
    session; the parts of the repository that [app.py] imports
    ([models.py], [auth.py]) are modelled from the specification and are
    marked as such. *)

From Stdlib Require Import ZArith List String Bool Lia Permutation Sorted.
Import ListNotations.
Open Scope string_scope.
Open Scope Z_scope.

(** ** JSON values and Python truthiness *)

(** What [request.get_json()] yields and what [jsonify] takes.  Python's
    [None] is [JNull]; a [dict] is the list of its items. *)
Set Warnings "-register-all".

Inductive json : Type :=
| JNull
| JBool (b : bool)
| JNum (n : Z)
| JStr (s : string)
| JArr (items : list json)
| JObj (fields : list (string * json)).

(** [bool(v)] as the [if v:] tests of the PATCH views evaluate it. *)
Definition truthy (v : json) : bool :=
  match v with
  | JNull => false
  | JBool b => b
  | JNum n => negb (n =? 0)
  | JStr s => negb (String.eqb s "")
  | JArr items => match items with [] => false | _ :: _ => true end
  | JObj fields => match fields with [] => false | _ :: _ => true end
  end.

(** [v is None] *)
Definition is_None (v : json) : bool :=
  match v with JNull => true | _ => false end.

(** [d.get(key, None)] on the items of a dict. *)
Fixpoint dict_get (key : string) (fields : list (string * json)) : json :=
  match fields with
  | [] => JNull
  | (k, v) :: rest => if String.eqb k key then v else dict_get key rest
  end.

(** ** Rows *)

Module Person.
Record t : Type := mk { id : Z; name : string }.

(** Modelled from the spec: [Person.format] of the absent [models.py],
    the JSON form of a row with the fields of section 3. *)
Definition format (p : t) : json :=
  JObj [("id", JNum (id p)); ("name", JStr (name p))].

Definition set_name (s : string) (p : t) : t := mk (id p) s.
End Person.

Module Quote.
Record t : Type :=
  mk { id : Z; title : string; description : string; person_id : Z }.

(** Modelled from the spec: [Quote.format] of the absent [models.py],
    the JSON form of a row with the fields of section 3. *)
Definition format (q : t) : json :=
  JObj [("id", JNum (id q)); ("title", JStr (title q));
        ("description", JStr (description q));
        ("person_id", JNum (person_id q))].

Definition set_title (s : string) (q : t) : t :=
  mk (id q) s (description q) (person_id q).
Definition set_description (s : string) (q : t) : t :=
  mk (id q) (title q) s (person_id q).
Definition set_person_id (n : Z) (q : t) : t :=
  mk (id q) (title q) (description q) n.
End Quote.

(** ** The database *)

(** Section 9 leaves open what the store does when a person that quotes
    still reference is deleted, and asks for a configuration choice. *)
Inductive DeletePolicy : Type := Cascade | Block.

(** The two tables in insertion order, and the next value of each id
    sequence. *)
Record DB : Type := mkDB {
  persons : list Person.t;
  quotes : list Quote.t;
  persons_seq : Z;
  quotes_seq : Z
}.

(** ** Sorting by id *)

Section OrderBy.
Context {A : Type} (key : A -> Z).

Fixpoint insert_by (x : A) (l : list A) : list A :=
  match l with
  | [] => [x]
  | y :: rest =>
      if key x <=? key y then x :: l else y :: insert_by x rest
  end.

(** [query.order_by('id').all()] on the rows of one table. *)
Definition order_by (l : list A) : list A :=
  fold_right insert_by [] l.

Definition ascending (l : list A) : Prop :=
  StronglySorted (fun a b => key a <= key b) l.

Definition find_by (i : Z) (l : list A) : option A :=
  find (fun x => key x =? i) l.

Definition remove_by (i : Z) (l : list A) : list A :=
  filter (fun x => negb (key x =? i)) l.

Definition update_by (i : Z) (f : A -> A) (l : list A) : list A :=
  map (fun x => if key x =? i then f x else x) l.
End OrderBy.

(** ** Requests, credentials and exceptions *)

(** The failure kinds of section 4.1 and 4.2. *)
Inductive AuthErrorKind : Type :=
| MissingOrMalformedHeader
| MalformedToken
| KeySetUnavailable
| KeyNotFound
| Expired
| InvalidClaims
| InvalidSignature
| InvalidHeader
| MissingPermissionsClaim
| Forbidden.

(** The claims of a verified token; [permissions] is [None] when the token
    carries no such field. *)
Record Payload : Type := mkPayload {
  subject : string;
  permissions : option (list string)
}.

(** The methods that the routes of [app.py] are registered for.  HEAD and
    OPTIONS, which the framework answers on its own, are not requests of
    this model. *)
Inductive Method : Type := GET | POST | PATCH | DELETE.

(** The URL rules of [app.py]; [int:id] segments carry the id. *)
Inductive Rule : Type :=
| Root
| QuotesRule
| PersonsRule
| QuoteRule (id : Z)
| PersonRule (id : Z)
| NoRule.

(** A request after the framework and the token validator have read it:
    [authorization] is what validating the bearer header gave (signature
    and key-set checks are the identity provider's side), [get_json] is the
    parsed body, [JNull] when there is none.  A body that the framework
    itself turns away as unreadable, with its own 400 or 415 page, is not
    a request of this model. *)
Record Request : Type := mkRequest {
  method : Method;
  rule : Rule;
  authorization : AuthErrorKind + Payload;
  get_json : json
}.

(** [AuthError(error, status_code)] of the absent [auth.py]. *)
Record AuthError : Type := mkAuthError { error : string; status_code : Z }.

Inductive exn : Type :=
| HTTPException (code : Z)
| AuthErrorExn (ex : AuthError)
| AttributeError
| StoreError.

Inductive Response : Type :=
| JsonResponse (status : Z) (body : json)
| ErrorPage (status : Z).

Definition status_of (r : Response) : Z :=
  match r with JsonResponse st _ => st | ErrorPage st => st end.

(** ** The session: a unit of work over the database *)

(** Attribute assignments on loaded rows wait in the session until a
    commit writes them; a request that ends without a commit drops them. *)
Inductive Change : Type :=
| SetName (id : Z) (v : json)
| SetTitle (id : Z) (v : json)
| SetDescription (id : Z) (v : json)
| SetPersonId (id : Z) (v : json)
| AddPerson (name : json)
| AddQuote (title description person_id : json)
| DelPerson (id : Z)
| DelQuote (id : Z).

Record Session : Type := mkSession { db : DB; dirty : list Change }.

Inductive Result (A : Type) : Type :=
| Ok (a : A)
| Raise (e : exn).
Arguments Ok {A} a.
Arguments Raise {A} e.

Definition M (A : Type) : Type := Session -> Result A * Session.

Definition ret {A} (a : A) : M A := fun s => (Ok a, s).

Definition bind {A B} (m : M A) (k : A -> M B) : M B :=
  fun s =>
    match m s with
    | (Ok a, s') => k a s'
    | (Raise e, s') => (Raise e, s')
    end.

Definition raise {A} (e : exn) : M A := fun s => (Raise e, s).

(** [abort(code)] *)
Definition abort {A} (code : Z) : M A := raise (HTTPException code).

(** [try: m  except: abort(422)]; a bare [except] takes every exception. *)
Definition try_except_abort {A} (m : M A) (code : Z) : M A :=
  fun s =>
    match m s with
    | (Ok a, s') => (Ok a, s')
    | (Raise _, s') => (Raise (HTTPException code), s')
    end.

Notation "x <- m ;; k" := (bind m (fun x => k))
  (at level 61, m at next level, right associativity).
Notation "m ;;; k" := (bind m (fun _ => k))
  (at level 61, right associativity).

(** [body.get(key, None)]: only a dict has [get]; on [None] or any other
    value the attribute lookup raises. *)
Definition py_get (body : json) (key : string) : M json :=
  match body with
  | JObj fields => ret (dict_get key fields)
  | _ => raise AttributeError
  end.

(** ** The store, modelled from the spec *)

(** Modelled from the spec: the column types of the absent [models.py]
    (section 3): [title], [description] and [name] hold strings and
    [person_id] holds an integer.  The store of this model takes strings
    and integers as they are and refuses [null]; it also refuses a value
    of any other JSON type, where a real store may convert it, so the
    statements about accepted values are about strings and integers. *)
Definition as_string (v : json) : option string :=
  match v with JStr s => Some s | _ => None end.

Definition as_int (v : json) : option Z :=
  match v with JNum n => Some n | _ => None end.

Definition person_exists (i : Z) (d : DB) : bool :=
  existsb (fun p => Person.id p =? i) (persons d).

Definition referenced (i : Z) (d : DB) : bool :=
  existsb (fun q => Quote.person_id q =? i) (quotes d).

Definition with_persons (d : DB) (l : list Person.t) : DB :=
  mkDB l (quotes d) (persons_seq d) (quotes_seq d).

Definition with_quotes (d : DB) (l : list Quote.t) : DB :=
  mkDB (persons d) l (persons_seq d) (quotes_seq d).

Section Store.
Variable policy : DeletePolicy.

(** Modelled from the spec: what the store does with one pending change
    (section 4.3).  An insert takes the next id of the table's sequence; a
    [person_id] must name a stored person; [None] is the store's refusal
    (ConstraintViolation), which leaves the database as it was. *)
Definition apply_change (c : Change) (d : DB) : option DB :=
  match c with
  | SetName i v =>
      match as_string v with
      | Some s =>
          Some (with_persons d (update_by Person.id i (Person.set_name s) (persons d)))
      | None => None
      end
  | SetTitle i v =>
      match as_string v with
      | Some s =>
          Some (with_quotes d (update_by Quote.id i (Quote.set_title s) (quotes d)))
      | None => None
      end
  | SetDescription i v =>
      match as_string v with
      | Some s =>
          Some (with_quotes d
                  (update_by Quote.id i (Quote.set_description s) (quotes d)))
      | None => None
      end
  | SetPersonId i v =>
      match as_int v with
      | Some n =>
          if person_exists n d
          then Some (with_quotes d
                       (update_by Quote.id i (Quote.set_person_id n) (quotes d)))
          else None
      | None => None
      end
  | AddPerson v =>
      match as_string v with
      | Some s =>
          Some (mkDB (persons d ++ [Person.mk (persons_seq d) s]) (quotes d)
                     (persons_seq d + 1) (quotes_seq d))
      | None => None
      end
  | AddQuote t ds p =>
      match as_string t, as_string ds, as_int p with
      | Some t', Some ds', Some n =>
          if person_exists n d
          then Some (mkDB (persons d)
                          (quotes d ++ [Quote.mk (quotes_seq d) t' ds' n])
                          (persons_seq d) (quotes_seq d + 1))
          else None
      | _, _, _ => None
      end
  | DelPerson i =>
      if referenced i d
      then match policy with
           | Block => None
           | Cascade =>
               Some (mkDB (remove_by Person.id i (persons d))
                          (remove_by Quote.person_id i (quotes d))
                          (persons_seq d) (quotes_seq d))
           end
      else Some (with_persons d (remove_by Person.id i (persons d)))
  | DelQuote i => Some (with_quotes d (remove_by Quote.id i (quotes d)))
  end.

(** The pending changes applied in order, all or nothing. *)
Fixpoint flush (cs : list Change) (d : DB) : option DB :=
  match cs with
  | [] => Some d
  | c :: rest =>
      match apply_change c d with
      | Some d' => flush rest d'
      | None => None
      end
  end.

(** Modelled from the spec: [db.session.commit()], one transaction for
    what the session holds plus the changes [cs] of the call. *)
Definition commit (cs : list Change) : M unit :=
  fun s =>
    match flush (dirty s ++ cs) (db s) with
    | Some d' => (Ok tt, mkSession d' [])
    | None => (Raise StoreError, s)
    end.

(** An attribute assignment on a loaded row, [row.attr = v]. *)
Definition assign (c : Change) : M unit :=
  fun s => (Ok tt, mkSession (db s) (dirty s ++ [c])).

(** Modelled from the spec: [Person.query.order_by('id').all()]. *)
Definition Person_query_all : M (list Person.t) :=
  fun s => (Ok (order_by Person.id (persons (db s))), s).

(** Modelled from the spec: [Quote.query.order_by('id').all()]. *)
Definition Quote_query_all : M (list Quote.t) :=
  fun s => (Ok (order_by Quote.id (quotes (db s))), s).

(** Modelled from the spec: [Person.query.get_or_404(id)]. *)
Definition Person_get_or_404 (i : Z) : M Person.t :=
  fun s =>
    match find_by Person.id i (persons (db s)) with
    | Some p => (Ok p, s)
    | None => (Raise (HTTPException 404), s)
    end.

(** Modelled from the spec: [Quote.query.get_or_404(id)]. *)
Definition Quote_get_or_404 (i : Z) : M Quote.t :=
  fun s =>
    match find_by Quote.id i (quotes (db s)) with
    | Some q => (Ok q, s)
    | None => (Raise (HTTPException 404), s)
    end.

(** Modelled from the spec: [Person(name=name)] followed by [insert()];
    the value is the id the new row received. *)
Definition Person_insert (name : json) : M Z :=
  fun s =>
    match flush (dirty s) (db s) with
    | Some d1 =>
        match apply_change (AddPerson name) d1 with
        | Some d2 => (Ok (persons_seq d1), mkSession d2 [])
        | None => (Raise StoreError, s)
        end
    | None => (Raise StoreError, s)
    end.

(** Modelled from the spec: [Quote(title=, description=, person_id=)]
    followed by [insert()]; the value is the id the new row received. *)
Definition Quote_insert (title description person_id : json) : M Z :=
  fun s =>
    match flush (dirty s) (db s) with
    | Some d1 =>
        match apply_change (AddQuote title description person_id) d1 with
        | Some d2 => (Ok (quotes_seq d1), mkSession d2 [])
        | None => (Raise StoreError, s)
        end
    | None => (Raise StoreError, s)
    end.

(** Modelled from the spec: [quote.update()]. *)
Definition Quote_update : M unit := commit [].

(** Modelled from the spec: [quote.delete()]. *)
Definition Quote_delete (q : Quote.t) : M unit := commit [DelQuote (Quote.id q)].

(** Modelled from the spec: [person.delete()]. *)
Definition Person_delete (p : Person.t) : M unit :=
  commit [DelPerson (Person.id p)].
End Store.

(** ** The application of [app.py] *)

Section App.
Variable policy : DeletePolicy.

(** The texts and codes that the absent [auth.py] gives its [AuthError]s,
    by failure kind. *)
Variable describe : AuthErrorKind -> string.
Variable code_of : AuthErrorKind -> Z.

Definition auth_error (k : AuthErrorKind) : AuthError :=
  mkAuthError (describe k) (code_of k).

(** Modelled from the spec: [check_permissions] of the absent [auth.py]
    (section 4.2): no [permissions] field at all is one failure, a field
    that lacks the required string is another. *)
Definition check_permissions (permission : string) (payload : Payload) : M unit :=
  match permissions payload with
  | None => raise (AuthErrorExn (auth_error MissingPermissionsClaim))
  | Some ps =>
      if existsb (String.eqb permission) ps
      then ret tt
      else raise (AuthErrorExn (auth_error Forbidden))
  end.

(** Modelled from the spec: the decorator [requires_auth(permission)] of
    the absent [auth.py]: validate the token, check the permission, then
    call the view with the payload. *)
Definition requires_auth {A} (permission : string) (f : Payload -> M A)
    (request : Request) : M A :=
  match authorization request with
  | inl k => raise (AuthErrorExn (auth_error k))
  | inr payload => check_permissions permission payload ;;; f payload
  end.

Definition index : M json :=
  ret (JObj [("success", JBool true);
             ("description", JStr "Quotation system is running.")]).

Definition get_quotes (jwt : Payload) : M json :=
  quotes <- Quote_query_all ;;
  (match quotes with [] => abort 404 | _ :: _ => ret tt end) ;;;
  let quotes_formated := map Quote.format quotes in
  ret (JObj [("success", JBool true);
             ("quotes", JArr quotes_formated);
             ("total_quotes", JNum (Z.of_nat (List.length quotes)))]).

Definition get_persons (jwt : Payload) : M json :=
  persons <- Person_query_all ;;
  (match persons with [] => abort 404 | _ :: _ => ret tt end) ;;;
  let persons_formated := map Person.format persons in
  ret (JObj [("success", JBool true);
             ("persons", JArr persons_formated);
             ("total_persons", JNum (Z.of_nat (List.length persons)))]).

Definition create_quote (request : Request) (jwt : Payload) : M json :=
  let body := get_json request in
  title <- py_get body "title" ;;
  description <- py_get body "description" ;;
  person_id <- py_get body "person_id" ;;
  (if is_None title || is_None description || is_None person_id
   then abort 422 else ret tt) ;;;
  try_except_abort
    (quote_id <- Quote_insert policy title description person_id ;;
     quotes_after_create <- Quote_query_all ;;
     let quotes_formated := map Quote.format quotes_after_create in
     ret (JObj [("success", JBool true);
                ("created", JNum quote_id);
                ("quotes", JArr quotes_formated);
                ("total_quotes", JNum (Z.of_nat (List.length quotes_formated)))]))
    422.

Definition create_person (request : Request) (jwt : Payload) : M json :=
  let body := get_json request in
  name <- py_get body "name" ;;
  (if is_None name then abort 422 else ret tt) ;;;
  try_except_abort
    (person_id <- Person_insert policy name ;;
     persons_after_create <- Person_query_all ;;
     let persons_formated := map Person.format persons_after_create in
     ret (JObj [("success", JBool true);
                ("created", JNum person_id);
                ("persons", JArr persons_formated);
                ("total_persons",
                 JNum (Z.of_nat (List.length persons_after_create)))]))
    422.

Definition edit_quote (request : Request) (jwt : Payload) (id : Z) : M json :=
  let body := get_json request in
  title <- py_get body "title" ;;
  description <- py_get body "description" ;;
  person_id <- py_get body "person_id" ;;
  quote <- Quote_get_or_404 id ;;
  try_except_abort
    ((if truthy title
      then assign (SetTitle (Quote.id quote) title) else ret tt) ;;;
     (if truthy description
      then assign (SetDescription (Quote.id quote) description) else ret tt) ;;;
     (if truthy person_id
      then assign (SetPersonId (Quote.id quote) person_id) else ret tt) ;;;
     Quote_update policy ;;;
     ret (JObj [("success", JBool true);
                ("quote_id", JNum (Quote.id quote))]))
    422.

Definition edit_person (request : Request) (jwt : Payload) (id : Z) : M json :=
  let body := get_json request in
  name <- py_get body "name" ;;
  person <- Person_get_or_404 id ;;
  try_except_abort
    ((if truthy name
      then assign (SetName (Person.id person) name) else ret tt) ;;;
     ret (JObj [("success", JBool true);
                ("person_id", JNum (Person.id person))]))
    422.

Definition remove_quote (jwt : Payload) (id : Z) : M json :=
  quote <- Quote_get_or_404 id ;;
  try_except_abort
    (Quote_delete policy quote ;;;
     ret (JObj [("success", JBool true); ("id", JNum id)]))
    422.

Definition remove_person (jwt : Payload) (id : Z) : M json :=
  person <- Person_get_or_404 id ;;
  try_except_abort
    (Person_delete policy person ;;;
     ret (JObj [("success", JBool true); ("id", JNum id)]))
    422.

Definition not_found : Response :=
  JsonResponse 404
    (JObj [("success", JBool false); ("error", JNum 404);
           ("message", JStr "resource not found")]).

Definition unprocessable : Response :=
  JsonResponse 422
    (JObj [("success", JBool false); ("error", JNum 422);
           ("message", JStr "Unprocessable")]).

Definition handle_auth_error (ex : AuthError) : Response :=
  JsonResponse 401
    (JObj [("success", JBool false); ("error", JNum (status_code ex));
           ("message", JStr (error ex))]).

(** The permission a route asks for, [None] for the public and the
    unknown ones. *)
Definition required_permission (m : Method) (r : Rule) : option string :=
  match m, r with
  | GET, QuotesRule => Some "get:quotes"
  | GET, PersonsRule => Some "get:persons"
  | POST, QuotesRule => Some "create:quote"
  | POST, PersonsRule => Some "create:person"
  | PATCH, QuoteRule _ => Some "edit:quote"
  | PATCH, PersonRule _ => Some "edit:person"
  | DELETE, QuoteRule _ => Some "remove:quote"
  | DELETE, PersonRule _ => Some "remove:person"
  | _, _ => None
  end.

(** The URL map: the view of a method and rule; a rule without the method
    is 405, no rule is 404. *)
Definition dispatch_request (request : Request) : M json :=
  match method request, rule request with
  | GET, Root => index
  | GET, QuotesRule => requires_auth "get:quotes" get_quotes request
  | GET, PersonsRule => requires_auth "get:persons" get_persons request
  | POST, QuotesRule =>
      requires_auth "create:quote" (create_quote request) request
  | POST, PersonsRule =>
      requires_auth "create:person" (create_person request) request
  | PATCH, QuoteRule id =>
      requires_auth "edit:quote" (fun jwt => edit_quote request jwt id) request
  | PATCH, PersonRule id =>
      requires_auth "edit:person" (fun jwt => edit_person request jwt id) request
  | DELETE, QuoteRule id =>
      requires_auth "remove:quote" (fun jwt => remove_quote jwt id) request
  | DELETE, PersonRule id =>
      requires_auth "remove:person" (fun jwt => remove_person jwt id) request
  | _, NoRule => abort 404
  | _, _ => abort 405
  end.

(** The registered error handlers; what none of them takes becomes the
    framework's own error page. *)
Definition handle_exception (e : exn) : Response :=
  match e with
  | HTTPException 404 => not_found
  | HTTPException 422 => unprocessable
  | HTTPException c => ErrorPage c
  | AuthErrorExn ex => handle_auth_error ex
  | AttributeError => ErrorPage 500
  | StoreError => ErrorPage 500
  end.

(** One request against the stored database: a fresh session, the view,
    the response; the session is removed when the request ends, so only
    what was committed stays. *)
Definition full_dispatch_request (d : DB) (request : Request) : Response * DB :=
  match dispatch_request request (mkSession d []) with
  | (Ok body, s) => (JsonResponse 200 body, db s)
  | (Raise e, s) => (handle_exception e, db s)
  end.
End App.

(** [grants permission request]: the token of the request was verified and
    its permissions hold the string. *)
Definition grants (permission : string) (request : Request) : bool :=
  match authorization request with
  | inl _ => false
  | inr payload =>
      match permissions payload with
      | None => false
      | Some ps => existsb (String.eqb permission) ps
      end
  end.

(** The routes whose view reads the JSON body. *)
Definition reads_body (m : Method) (r : Rule) : bool :=
  match m, r with
  | POST, QuotesRule | POST, PersonsRule => true
  | PATCH, QuoteRule _ | PATCH, PersonRule _ => true
  | _, _ => false
  end.

Definition is_object (v : json) : bool :=
  match v with JObj _ => true | _ => false end.

(** The claim of the update contract as the specification words it: a
    title supplied with a value other than null is the stored title
    afterwards. *)
Definition non_null_title_applied : Prop :=
  forall policy describe code_of d request id fields q v s,
    method request = PATCH ->
    rule request = QuoteRule id ->
    grants "edit:quote" request = true ->
    get_json request = JObj fields ->
    find_by Quote.id id (quotes d) = Some q ->
    dict_get "title" fields = v ->
    v <> JNull ->
    as_string v = Some s ->
    exists q',
      find_by Quote.id id
        (quotes (snd (full_dispatch_request policy describe code_of d request)))
      = Some q' /\ Quote.title q' = s.



(** ** The id sequences *)

(** Every stored id lies below the next value of its sequence. *)
Definition ids_below_seq (d : DB) : Prop :=
  (forall p, In p (persons d) -> Person.id p < persons_seq d) /\
  (forall q, In q (quotes d) -> Quote.id q < quotes_seq d).

(** No two rows of a table share an id. *)
Definition unique_ids (d : DB) : Prop :=
  NoDup (map Person.id (persons d)) /\ NoDup (map Quote.id (quotes d)).

(** Every stored quote names a stored person. *)
Definition references_hold (d : DB) : Prop :=
  forall q, In q (quotes d) -> person_exists (Quote.person_id q) d = true.

Definition well_formed (d : DB) : Prop :=
  ids_below_seq d /\ unique_ids d /\ references_hold d.

(** ** Sample data *)

Definition sample_describe (k : AuthErrorKind) : string :=
  match k with
  | MissingOrMalformedHeader => "Authorization header is missing or malformed."
  | MalformedToken => "Token is malformed."
  | KeySetUnavailable => "Key set is unavailable."
  | KeyNotFound => "Unable to find the appropriate key."
  | Expired => "Token expired."
  | InvalidClaims => "Incorrect claims."
  | InvalidSignature => "Unable to verify the signature."
  | InvalidHeader => "Unexpected signing algorithm."
  | MissingPermissionsClaim => "Permissions not included in token."
  | Forbidden => "Permission not found."
  end.

Definition sample_code (k : AuthErrorKind) : Z := 401.

Definition admin : Payload :=
  mkPayload "admin"
    (Some ["get:quotes"; "get:persons"; "create:quote"; "create:person";
           "edit:quote"; "edit:person"; "remove:quote"; "remove:person"]).

Definition reader : Payload := mkPayload "reader" (Some ["get:persons"]).

Definition sample_db : DB :=
  mkDB [Person.mk 2 "B"; Person.mk 1 "A"]
       [Quote.mk 1 "Do" "Do what you have to do" 1]
       3 2.

Definition sample_serve : DB -> Request -> Response * DB :=
  full_dispatch_request Block sample_describe sample_code.

(** ** Sorting and lookup lemmas *)

Section OrderByFacts.
Context {A : Type} (key : A -> Z).

Lemma insert_by_perm (x : A) (l : list A) :
  Permutation (insert_by key x l) (x :: l).
Proof.
  induction l as [|y rest IH]; simpl.
  - apply Permutation_refl.
  - destruct (key x <=? key y).
    + apply Permutation_refl.
    + eapply perm_trans; [apply perm_skip, IH | apply perm_swap].
Qed.

Lemma order_by_perm (l : list A) : Permutation (order_by key l) l.
Proof.
  induction l as [|x rest IH]; simpl.
  - constructor.
  - eapply perm_trans; [apply insert_by_perm | apply perm_skip, IH].
Qed.

Lemma insert_by_ascending (x : A) (l : list A) :
  ascending key l -> ascending key (insert_by key x l).
Proof.
  unfold ascending.
  induction l as [|y rest IH]; simpl; intros Hs.
  - constructor; [constructor | constructor].
  - inversion Hs as [|? ? Hrest Hall]; subst.
    destruct (key x <=? key y) eqn:E.
    + apply Z.leb_le in E.
      constructor; [exact Hs|].
      constructor; [exact E|].
      eapply Forall_impl; [|exact Hall]. simpl; intros; lia.
    + apply Z.leb_gt in E.
      constructor; [apply IH; exact Hrest|].
      eapply Permutation_Forall.
      * apply Permutation_sym, insert_by_perm.
      * constructor; [lia | exact Hall].
Qed.

Lemma order_by_ascending (l : list A) : ascending key (order_by key l).
Proof.
  induction l as [|x rest IH]; simpl.
  - constructor.
  - apply insert_by_ascending, IH.
Qed.

Lemma order_by_length (l : list A) :
  List.length (order_by key l) = List.length l.
Proof. apply Permutation_length, order_by_perm. Qed.

Lemma order_by_nil (l : list A) : order_by key l = [] -> l = [].
Proof.
  intros H. apply Permutation_nil.
  rewrite <- H. apply order_by_perm.
Qed.

Lemma find_by_key (i : Z) (l : list A) (x : A) :
  find_by key i l = Some x -> key x = i /\ In x l.
Proof.
  unfold find_by. intros H. apply find_some in H as [Hin Hk].
  apply Z.eqb_eq in Hk. auto.
Qed.

Lemma find_by_update_by (i : Z) (f : A -> A) (l : list A) :
  (forall x, key (f x) = key x) ->
  find_by key i (update_by key i f l) = option_map f (find_by key i l).
Proof.
  intros Hf. unfold find_by, update_by.
  induction l as [|y rest IH]; simpl; [reflexivity|].
  destruct (key y =? i) eqn:E.
  - rewrite Hf, E. reflexivity.
  - rewrite E. exact IH.
Qed.

Lemma find_by_update_other (i j : Z) (f : A -> A) (l : list A) :
  (forall x, key (f x) = key x) -> i <> j ->
  find_by key j (update_by key i f l) = find_by key j l.
Proof.
  intros Hf Hij. unfold find_by, update_by.
  induction l as [|y rest IH]; simpl; [reflexivity|].
  destruct (key y =? i) eqn:E.
  - rewrite Hf. apply Z.eqb_eq in E.
    assert ((key y =? j) = false) as -> by (apply Z.eqb_neq; lia).
    exact IH.
  - destruct (key y =? j); [reflexivity | exact IH].
Qed.

Lemma map_update_by {B} (g : A -> B) (i : Z) (f : A -> A) (l : list A) :
  (forall x, g (f x) = g x) ->
  map g (update_by key i f l) = map g l.
Proof.
  intros Hf. unfold update_by. rewrite map_map.
  apply map_ext. intros x. destruct (key x =? i); auto.
Qed.


Lemma remove_by_keeps (i j : Z) (l : list A) :
  i <> j -> find_by key j (remove_by key i l) = find_by key j l.
Proof.
  intros Hij. unfold find_by, remove_by.
  induction l as [|y rest IH]; simpl; [reflexivity|].
  destruct (key y =? i) eqn:E; simpl.
  - apply Z.eqb_eq in E.
    assert ((key y =? j) = false) as -> by (apply Z.eqb_neq; lia).
    exact IH.
  - destruct (key y =? j); [reflexivity | exact IH].
Qed.
End OrderByFacts.

(** ** Inserted ids are new *)

Lemma AddPerson_id_fresh (policy : DeletePolicy) (d d' : DB) (v : json) :
  ids_below_seq d ->
  apply_change policy (AddPerson v) d = Some d' ->
  ~ In (persons_seq d) (map Person.id (persons d)) /\ ids_below_seq d'.
Proof.
  intros [Hp Hq] Happly. simpl in Happly.
  destruct (as_string v) as [s|]; [|discriminate].
  injection Happly as <-. split.
  - rewrite in_map_iff. intros [p [Hid Hin]].
    specialize (Hp p Hin). lia.
  - split; simpl; [|exact Hq].
    intros p Hin. apply in_app_or in Hin as [Hin | [<- | []]].
    + specialize (Hp p Hin). lia.
    + simpl. lia.
Qed.

Lemma AddQuote_id_fresh (policy : DeletePolicy) (d d' : DB) (t ds p : json) :
  ids_below_seq d ->
  apply_change policy (AddQuote t ds p) d = Some d' ->
  ~ In (quotes_seq d) (map Quote.id (quotes d)) /\ ids_below_seq d'.
Proof.
  intros [Hp Hq] Happly. simpl in Happly.
  destruct (as_string t) as [t'|]; [|discriminate].
  destruct (as_string ds) as [ds'|]; [|discriminate].
  destruct (as_int p) as [n|]; [|discriminate].
  destruct (person_exists n d); [|discriminate].
  injection Happly as <-. split.
  - rewrite in_map_iff. intros [q [Hid Hin]].
    specialize (Hq q Hin). lia.
  - split; simpl; [exact Hp|].
    intros q Hin. apply in_app_or in Hin as [Hin | [<- | []]].
    + specialize (Hq q Hin). lia.
    + simpl. lia.
Qed.

(** ** Properties of the routes *)

Section Routes.
Variable policy : DeletePolicy.
Variable describe : AuthErrorKind -> string.
Variable code_of : AuthErrorKind -> Z.

Abbreviation serve := (full_dispatch_request policy describe code_of).
Abbreviation auth := (requires_auth describe code_of).

Lemma requires_auth_granted {A} (permission : string) (f : Payload -> M A)
    (request : Request) :
  grants permission request = true ->
  exists payload,
    authorization request = inr payload /\
    forall s, auth permission f request s = f payload s.
Proof.
  unfold grants, requires_auth, check_permissions.
  destruct (authorization request) as [k|payload]; [discriminate|].
  destruct (permissions payload) as [ps|]; [|discriminate].
  intros ->. exists payload. split; [reflexivity|].
  intros s. reflexivity.
Qed.

Lemma requires_auth_denied {A} (permission : string) (f : Payload -> M A)
    (request : Request) :
  grants permission request = false ->
  exists k,
    (forall s,
        auth permission f request s
        = (Raise (AuthErrorExn (auth_error describe code_of k)), s)) /\
    (forall payload ps,
        authorization request = inr payload ->
        permissions payload = Some ps -> k = Forbidden).
Proof.
  unfold grants, requires_auth, check_permissions.
  destruct (authorization request) as [k|payload].
  - intros _. exists k. split; [reflexivity | discriminate].
  - destruct (permissions payload) as [ps|] eqn:Eps.
    + intros ->. exists Forbidden. split; [reflexivity | reflexivity].
    + intros _. exists MissingPermissionsClaim. split; [reflexivity|].
      intros p ps [= <-]. congruence.
Qed.

(** Every protected route runs its view behind [requires_auth]. *)
Lemma dispatch_protected (request : Request) (permission : string) :
  required_permission (method request) (rule request) = Some permission ->
  exists f : Payload -> M json,
    dispatch_request policy describe code_of request
    = auth permission f request.
Proof.
  unfold required_permission, dispatch_request.
  destruct (method request), (rule request); intros [= <-];
    eexists; reflexivity.
Qed.

(** C6: on every protected route a request whose authentication or
    authorization fails is answered with HTTP status 401, never 403, and a
    body of the shape success false, error code, message text, where the
    text is the description of the failure kind; a verified token that
    lacks the required permission is the kind Forbidden.  Nothing is
    written to the database. *)
Theorem auth_failure_is_401 (d : DB) (request : Request) (permission : string) :
  required_permission (method request) (rule request) = Some permission ->
  grants permission request = false ->
  exists k,
    serve d request
    = (JsonResponse 401
         (JObj [("success", JBool false); ("error", JNum (code_of k));
                ("message", JStr (describe k))]), d) /\
    serve d request = (handle_auth_error (auth_error describe code_of k), d) /\
    status_of (fst (serve d request)) <> 403 /\
    (forall payload ps,
        authorization request = inr payload ->
        permissions payload = Some ps -> k = Forbidden).
Proof.
  intros Hperm Hdenied.
  destruct (dispatch_protected request permission Hperm) as [f Hf].
  destruct (requires_auth_denied permission f request Hdenied) as [k [Hk Hkind]].
  exists k. unfold full_dispatch_request.
  rewrite Hf, Hk. simpl. repeat split; try discriminate. exact Hkind.
Qed.

(** C10: on the POST and PATCH routes an authorized request whose body is
    absent or is not a JSON object makes the view raise on the first
    [body.get], before the required-field test and before the lookup by
    id: the error is not caught, the answer is the framework's 500 page
    and neither 422 nor 404, whatever the id, and the database is as it
    was. *)
Theorem non_object_body_is_uncaught (d : DB) (request : Request)
    (permission : string) :
  reads_body (method request) (rule request) = true ->
  required_permission (method request) (rule request) = Some permission ->
  grants permission request = true ->
  is_object (get_json request) = false ->
  dispatch_request policy describe code_of request (mkSession d [])
  = (Raise AttributeError, mkSession d []) /\
  serve d request = (ErrorPage 500, d).
Proof.
  intros Hbody Hperm Hgrant Hobj.
  assert (dispatch_request policy describe code_of request (mkSession d [])
          = (Raise AttributeError, mkSession d [])) as Hrun.
  { unfold dispatch_request, required_permission, reads_body in *.
    destruct (method request), (rule request);
      try discriminate; injection Hperm as <-;
      match goal with
      | |- requires_auth _ _ _ ?f _ _ = _ =>
          destruct (requires_auth_granted _ f request Hgrant) as [p [_ ->]]
      end;
      unfold create_quote, create_person, edit_quote, edit_person, bind, py_get;
      destruct (get_json request); try discriminate; reflexivity. }
  split; [exact Hrun|].
  unfold full_dispatch_request. rewrite Hrun. reflexivity.
Qed.

(** C3: POST /quotes with the create:quote permission and a JSON object
    whose title, description or person_id is null or absent answers 422
    and inserts nothing: the database is the one before the request. *)
Theorem create_quote_missing_field_422 (d : DB) (request : Request)
    (fields : list (string * json)) :
  method request = POST ->
  rule request = QuotesRule ->
  grants "create:quote" request = true ->
  get_json request = JObj fields ->
  dict_get "title" fields = JNull \/
  dict_get "description" fields = JNull \/
  dict_get "person_id" fields = JNull ->
  serve d request = (unprocessable, d) /\
  status_of (fst (serve d request)) = 422.
Proof.
  intros Hm Hr Hgrant Hbody Hnull.
  assert (serve d request = (unprocessable, d)) as Hrun.
  { unfold full_dispatch_request, dispatch_request. rewrite Hm, Hr.
    destruct (requires_auth_granted "create:quote" (create_quote policy request)
                request Hgrant) as [p [_ ->]].
    unfold create_quote, bind, py_get. rewrite Hbody. simpl.
    assert (is_None (dict_get "title" fields)
            || is_None (dict_get "description" fields)
            || is_None (dict_get "person_id" fields) = true) as ->.
    { destruct Hnull as [-> | [-> | ->]]; simpl;
        rewrite ?orb_true_r; reflexivity. }
    reflexivity. }
  rewrite Hrun. split; reflexivity.
Qed.

(** C4: an authorized GET /quotes or GET /persons answers 404 when the
    table is empty, and otherwise 200 with the rows of the table in
    ascending order of id and a total equal to the number of rows. *)
Theorem list_routes_404_or_ascending (d : DB) (request : Request) :
  method request = GET ->
  (rule request = QuotesRule ->
   grants "get:quotes" request = true ->
   (quotes d = [] ->
    serve d request = (not_found, d) /\ status_of (fst (serve d request)) = 404) /\
   (quotes d <> [] ->
    exists rows,
      serve d request
      = (JsonResponse 200
           (JObj [("success", JBool true);
                  ("quotes", JArr (map Quote.format rows));
                  ("total_quotes", JNum (Z.of_nat (List.length (quotes d))))]),
         d) /\
      ascending Quote.id rows /\ Permutation rows (quotes d))) /\
  (rule request = PersonsRule ->
   grants "get:persons" request = true ->
   (persons d = [] ->
    serve d request = (not_found, d) /\ status_of (fst (serve d request)) = 404) /\
   (persons d <> [] ->
    exists rows,
      serve d request
      = (JsonResponse 200
           (JObj [("success", JBool true);
                  ("persons", JArr (map Person.format rows));
                  ("total_persons", JNum (Z.of_nat (List.length (persons d))))]),
         d) /\
      ascending Person.id rows /\ Permutation rows (persons d))).
Proof.
  intros Hm. split; intros Hr Hgrant.
  - assert (forall s, dispatch_request policy describe code_of request s
                      = get_quotes (mkPayload "" None) s) as Hview.
    { intros s. unfold dispatch_request. rewrite Hm, Hr.
      destruct (requires_auth_granted "get:quotes" get_quotes request Hgrant)
        as [p [_ ->]]. reflexivity. }
    unfold full_dispatch_request. rewrite Hview.
    unfold get_quotes, bind, Quote_query_all. simpl.
    split.
    + intros ->. simpl. split; reflexivity.
    + intros Hne. exists (order_by Quote.id (quotes d)).
      rewrite <- (order_by_length Quote.id (quotes d)).
      destruct (order_by Quote.id (quotes d)) as [|q rows] eqn:E.
      * apply order_by_nil in E. contradiction.
      * simpl. split; [reflexivity|]. rewrite <- E.
        split; [apply order_by_ascending | apply order_by_perm].
  - assert (forall s, dispatch_request policy describe code_of request s
                      = get_persons (mkPayload "" None) s) as Hview.
    { intros s. unfold dispatch_request. rewrite Hm, Hr.
      destruct (requires_auth_granted "get:persons" get_persons request Hgrant)
        as [p [_ ->]]. reflexivity. }
    unfold full_dispatch_request. rewrite Hview.
    unfold get_persons, bind, Person_query_all. simpl.
    split.
    + intros ->. simpl. split; reflexivity.
    + intros Hne. exists (order_by Person.id (persons d)).
      rewrite <- (order_by_length Person.id (persons d)).
      destruct (order_by Person.id (persons d)) as [|q rows] eqn:E.
      * apply order_by_nil in E. contradiction.
      * simpl. split; [reflexivity|]. rewrite <- E.
        split; [apply order_by_ascending | apply order_by_perm].
Qed.

(** C5: POST /persons with the create:person permission and a name that is
    not null and that the store takes (a string) answers 200; [created] is
    the id of the row that was inserted, [persons] is the whole listing
    after the insert, and [total_persons] is the row count after the
    insert, one more than before. *)
Theorem create_person_returns_listing (d : DB) (request : Request)
    (fields : list (string * json)) (s : string) :
  method request = POST ->
  rule request = PersonsRule ->
  grants "create:person" request = true ->
  get_json request = JObj fields ->
  dict_get "name" fields = JStr s ->
  let created := persons_seq d in
  let d' := mkDB (persons d ++ [Person.mk created s]) (quotes d)
                 (persons_seq d + 1) (quotes_seq d) in
  serve d request
  = (JsonResponse 200
       (JObj [("success", JBool true);
              ("created", JNum created);
              ("persons",
               JArr (map Person.format (order_by Person.id (persons d'))));
              ("total_persons", JNum (Z.of_nat (List.length (persons d'))))]),
     d') /\
  In (Person.mk created s) (persons d') /\
  Z.of_nat (List.length (persons d')) = Z.of_nat (List.length (persons d)) + 1.
Proof.
  intros Hm Hr Hgrant Hbody Hname created d'.
  split; [|split].
  - unfold full_dispatch_request, dispatch_request. rewrite Hm, Hr.
    destruct (requires_auth_granted "create:person"
                (create_person policy request) request Hgrant) as [p [_ ->]].
    unfold create_person, bind, py_get, try_except_abort, Person_insert,
      Person_query_all.
    rewrite Hbody. simpl. rewrite Hname. simpl.
    rewrite (order_by_length Person.id (persons d ++ [Person.mk (persons_seq d) s])).
    reflexivity.
  - simpl. apply in_or_app. right. left. reflexivity.
  - simpl. rewrite length_app. simpl. lia.
Qed.

(** C7: PATCH /quotes/{id} for an id that no stored quote has leaves the
    database as it was, whatever the request; when the request holds the
    edit:quote permission and a JSON object, the answer is 404: the lookup
    by id comes before any assignment. *)
Theorem edit_quote_unknown_id_404 (d : DB) (request : Request) (id : Z) :
  method request = PATCH ->
  rule request = QuoteRule id ->
  find_by Quote.id id (quotes d) = None ->
  snd (serve d request) = d /\
  (grants "edit:quote" request = true ->
   is_object (get_json request) = true ->
   serve d request = (not_found, d) /\ status_of (fst (serve d request)) = 404).
Proof.
  intros Hm Hr Hfind.
  assert (forall p,
             edit_quote policy request p id (mkSession d [])
             = (Raise (if is_object (get_json request)
                       then HTTPException 404 else AttributeError),
                mkSession d [])) as Hview.
  { intros p. unfold edit_quote, bind, py_get, Quote_get_or_404.
    destruct (get_json request); try reflexivity.
    simpl. rewrite Hfind. reflexivity. }
  unfold full_dispatch_request, dispatch_request. rewrite Hm, Hr.
  destruct (grants "edit:quote" request) eqn:Hgrant.
  - destruct (requires_auth_granted "edit:quote"
                (fun jwt => edit_quote policy request jwt id) request Hgrant)
      as [p [_ ->]].
    rewrite Hview. split.
    + destruct (is_object (get_json request)); reflexivity.
    + intros _ ->. split; reflexivity.
  - destruct (requires_auth_denied "edit:quote"
                (fun jwt => edit_quote policy request jwt id) request Hgrant)
      as [k [-> _]].
    split; [reflexivity | discriminate].
Qed.





(** C2: PATCH /quotes/{id} on a stored quote, with the edit:quote
    permission and a JSON object that gives only the title (description
    and person_id absent or null), leaves the description and the
    person_id of every stored quote, and the persons table, as they were;
    when the title given is a string that is not empty, the answer is 200
    and the title of the quote is that string. *)
Theorem edit_quote_title_only (d : DB) (request : Request) (id : Z)
    (fields : list (string * json)) (q : Quote.t) :
  method request = PATCH ->
  rule request = QuoteRule id ->
  grants "edit:quote" request = true ->
  get_json request = JObj fields ->
  dict_get "description" fields = JNull ->
  dict_get "person_id" fields = JNull ->
  find_by Quote.id id (quotes d) = Some q ->
  let d' := snd (serve d request) in
  map Quote.description (quotes d') = map Quote.description (quotes d) /\
  map Quote.person_id (quotes d') = map Quote.person_id (quotes d) /\
  map Quote.id (quotes d') = map Quote.id (quotes d) /\
  persons d' = persons d /\
  (exists q',
      find_by Quote.id id (quotes d') = Some q' /\
      Quote.description q' = Quote.description q /\
      Quote.person_id q' = Quote.person_id q) /\
  (forall s,
      dict_get "title" fields = JStr s -> s <> "" ->
      serve d request
      = (JsonResponse 200
           (JObj [("success", JBool true); ("quote_id", JNum id)]), d') /\
      exists q',
        find_by Quote.id id (quotes d') = Some q' /\ Quote.title q' = s).
Proof.
  intros Hm Hr Hgrant Hbody Hdesc Hpid Hfind.
  unfold full_dispatch_request, dispatch_request. rewrite Hm, Hr.
  destruct (requires_auth_granted "edit:quote"
              (fun jwt => edit_quote policy request jwt id) request Hgrant)
    as [p [_ ->]].
  unfold edit_quote, bind, py_get, Quote_get_or_404, try_except_abort,
    Quote_update, commit, assign.
  rewrite Hbody. simpl. rewrite Hdesc, Hpid, Hfind. simpl.
  pose proof (find_by_key Quote.id id (quotes d) q Hfind) as [Hid _].
  rewrite Hid.
  assert (forall s, dict_get "title" fields = JStr s -> s <> "" ->
                    truthy (dict_get "title" fields) = true) as Hnonempty.
  { intros s -> Hs. simpl. apply negb_true_iff, String.eqb_neq, Hs. }
  destruct (truthy (dict_get "title" fields)) eqn:Ht; simpl.
  - destruct (as_string (dict_get "title" fields)) as [t|] eqn:Hs; simpl.
    + split; [apply map_update_by; reflexivity|].
      split; [apply map_update_by; reflexivity|].
      split; [apply map_update_by; reflexivity|].
      split; [reflexivity|].
      split.
      * exists (Quote.set_title t q).
        rewrite find_by_update_by by reflexivity. rewrite Hfind.
        repeat split; reflexivity.
      * intros s Htitle _. rewrite Htitle in Hs. injection Hs as <-.
        split; [reflexivity|].
        exists (Quote.set_title s q).
        rewrite find_by_update_by by reflexivity. rewrite Hfind.
        split; reflexivity.
    + repeat (split; [reflexivity|]).
      split; [exists q; repeat split; exact Hfind|].
      intros s Htitle _. rewrite Htitle in Hs. discriminate.
  - repeat (split; [reflexivity|]).
    split; [exists q; repeat split; exact Hfind|].
    intros s Htitle Hne. specialize (Hnonempty s Htitle Hne). discriminate.
Qed.

Lemma person_exists_with_quotes (n : Z) (d : DB) (l : list Quote.t) :
  person_exists n (with_quotes d l) = person_exists n d.
Proof. reflexivity. Qed.

(** C9, as amended: on PATCH /quotes/{id} for a stored quote, with the
    edit:quote permission, a JSON object, and values that the store takes,
    each of title, description and person_id that is supplied with a
    truthy value becomes the stored value, and each that is omitted, null,
    the empty string or 0 keeps its stored value; the answer is 200 with
    the id of the quote. *)
Theorem edit_quote_applies_truthy_fields (d : DB) (request : Request) (id : Z)
    (fields : list (string * json)) (q : Quote.t) :
  method request = PATCH ->
  rule request = QuoteRule id ->
  grants "edit:quote" request = true ->
  get_json request = JObj fields ->
  find_by Quote.id id (quotes d) = Some q ->
  let title := dict_get "title" fields in
  let description := dict_get "description" fields in
  let person_id := dict_get "person_id" fields in
  (truthy title = true -> as_string title <> None) ->
  (truthy description = true -> as_string description <> None) ->
  (truthy person_id = true ->
   exists n, as_int person_id = Some n /\ person_exists n d = true) ->
  let d' := snd (serve d request) in
  serve d request
  = (JsonResponse 200 (JObj [("success", JBool true); ("quote_id", JNum id)]),
     d') /\
  exists q',
    find_by Quote.id id (quotes d') = Some q' /\
    (if truthy title then as_string title = Some (Quote.title q')
     else Quote.title q' = Quote.title q) /\
    (if truthy description
     then as_string description = Some (Quote.description q')
     else Quote.description q' = Quote.description q) /\
    (if truthy person_id then as_int person_id = Some (Quote.person_id q')
     else Quote.person_id q' = Quote.person_id q).
Proof.
  intros Hm Hr Hgrant Hbody Hfind title description person_id Ht Hd Hp.
  unfold full_dispatch_request, dispatch_request. rewrite Hm, Hr.
  destruct (requires_auth_granted "edit:quote"
              (fun jwt => edit_quote policy request jwt id) request Hgrant)
    as [p [_ ->]].
  unfold edit_quote, bind, py_get, Quote_get_or_404, try_except_abort,
    Quote_update, commit, assign.
  rewrite Hbody. cbn [ret db dirty]. rewrite Hfind.
  pose proof (find_by_key Quote.id id (quotes d) q Hfind) as [Hid _].
  rewrite Hid.
  fold title description person_id.
  destruct (truthy title) eqn:Et;
    [destruct (as_string title) as [t|] eqn:Est;
       [clear Ht | exfalso; apply Ht; reflexivity] | clear Ht];
    (destruct (truthy description) eqn:Ed;
       [destruct (as_string description) as [ds|] eqn:Esd;
          [clear Hd | exfalso; apply Hd; reflexivity] | clear Hd]);
    (destruct (truthy person_id) eqn:Ep;
       [destruct (Hp eq_refl) as [n [Esp Hex]] | clear Hp]);
    cbn [ret app flush apply_change db dirty fst snd];
    rewrite ?Est, ?Esd, ?Esp; cbn [flush apply_change];
    rewrite ?Est, ?Esd, ?Esp, ?person_exists_with_quotes, ?Hex;
    cbn [flush db dirty fst snd quotes with_quotes];
    (split; [reflexivity|]);
    cbv [ret]; cbn [fst snd db quotes with_quotes];
    rewrite ?find_by_update_by by reflexivity; rewrite Hfind;
    eexists; (split; [reflexivity|]); repeat split; reflexivity.
Qed.

(** PATCH /persons/{id} never writes: the view assigns the name on the
    loaded row and returns without a commit, so the session is dropped
    with the assignment in it. *)
Lemma edit_person_commits_nothing (d : DB) (request : Request) (id : Z) :
  method request = PATCH ->
  rule request = PersonRule id ->
  snd (serve d request) = d.
Proof.
  intros Hm Hr.
  unfold full_dispatch_request, dispatch_request. rewrite Hm, Hr.
  destruct (grants "edit:person" request) eqn:Hgrant.
  - destruct (requires_auth_granted "edit:person"
                (fun jwt => edit_person request jwt id) request Hgrant)
      as [p [_ ->]].
    unfold edit_person, bind, py_get, Person_get_or_404, try_except_abort,
      assign.
    destruct (get_json request); try reflexivity.
    cbv [ret]. cbn [db].
    destruct (find_by Person.id id (persons d)); [|reflexivity].
    destruct (truthy (dict_get "name" fields)); reflexivity.
  - destruct (requires_auth_denied "edit:person"
                (fun jwt => edit_person request jwt id) request Hgrant)
      as [k [-> _]].
    reflexivity.
Qed.
End Routes.

(** ** The routes on the sample data *)

(** C1: PATCH /persons/1 with the name Salah on the sample data answers
    200 with the id of the person, and the stored name is still the old
    one: the view never commits the assignment, where [edit_quote] calls
    [update()]. *)
Theorem edit_person_name_not_persisted
    (policy : DeletePolicy) (describe : AuthErrorKind -> string)
    (code_of : AuthErrorKind -> Z) :
  let request :=
    mkRequest PATCH (PersonRule 1) (inr admin) (JObj [("name", JStr "Salah")]) in
  let served := full_dispatch_request policy describe code_of sample_db request in
  truthy (dict_get "name" [("name", JStr "Salah")]) = true /\
  fst served
  = JsonResponse 200 (JObj [("success", JBool true); ("person_id", JNum 1)]) /\
  snd served = sample_db /\
  option_map Person.name (find_by Person.id 1 (persons (snd served))) = Some "A" /\
  option_map Person.name (find_by Person.id 1 (persons (snd served)))
  <> Some "Salah".
Proof.
  intros request served.
  assert (snd served = sample_db) as Hdb.
  { apply edit_person_commits_nothing with (id := 1); reflexivity. }
  rewrite Hdb. repeat split; try reflexivity. discriminate.
Qed.

(** The counterexample to C9 as stated: PATCH /quotes/1 with the title set
    to the empty string, a value that is not null, answers 200 and keeps
    the stored title. *)
Lemma empty_title_not_applied : ~ non_null_title_applied.
Proof.
  intros Hclaim.
  destruct (Hclaim Block sample_describe sample_code sample_db
              (mkRequest PATCH (QuoteRule 1) (inr admin)
                 (JObj [("title", JStr "")]))
              1 [("title", JStr "")]
              (Quote.mk 1 "Do" "Do what you have to do" 1) (JStr "") ""
              eq_refl eq_refl eq_refl eq_refl eq_refl eq_refl
              ltac:(discriminate) eq_refl)
    as [q' [Hfind Htitle]].
  vm_compute in Hfind. injection Hfind as <-. discriminate.
Qed.

Example edit_quote_empty_title_kept :
  sample_serve sample_db
    (mkRequest PATCH (QuoteRule 1) (inr admin) (JObj [("title", JStr "")]))
  = (JsonResponse 200 (JObj [("success", JBool true); ("quote_id", JNum 1)]),
     sample_db).
Proof. reflexivity. Qed.

Example edit_quote_zero_person_id_kept :
  sample_serve sample_db
    (mkRequest PATCH (QuoteRule 1) (inr admin) (JObj [("person_id", JNum 0)]))
  = (JsonResponse 200 (JObj [("success", JBool true); ("quote_id", JNum 1)]),
     sample_db).
Proof. reflexivity. Qed.

Lemma auth_failure_is_401_witness :
  exists k,
    sample_serve sample_db (mkRequest GET QuotesRule (inr reader) JNull)
    = (JsonResponse 401
         (JObj [("success", JBool false); ("error", JNum (sample_code k));
                ("message", JStr (sample_describe k))]), sample_db) /\
    k = Forbidden.
Proof.
  destruct (auth_failure_is_401 Block sample_describe sample_code sample_db
              (mkRequest GET QuotesRule (inr reader) JNull) "get:quotes"
              eq_refl eq_refl) as [k [Hk [_ [_ Hkind]]]].
  exists k. split; [exact Hk|].
  exact (Hkind reader ["get:persons"] eq_refl eq_refl).
Defined.

Lemma non_object_body_is_uncaught_witness :
  sample_serve sample_db (mkRequest PATCH (QuoteRule 99999) (inr admin) JNull)
  = (ErrorPage 500, sample_db).
Proof.
  exact (proj2 (non_object_body_is_uncaught Block sample_describe sample_code
                  sample_db
                  (mkRequest PATCH (QuoteRule 99999) (inr admin) JNull)
                  "edit:quote" eq_refl eq_refl eq_refl eq_refl)).
Defined.

Lemma create_quote_missing_field_422_witness :
  sample_serve sample_db
    (mkRequest POST QuotesRule (inr admin)
       (JObj [("title", JStr "Do");
              ("description", JStr "Do what you have to do")]))
  = (unprocessable, sample_db).
Proof.
  exact (proj1 (create_quote_missing_field_422 Block sample_describe sample_code
                  sample_db
                  (mkRequest POST QuotesRule (inr admin)
                     (JObj [("title", JStr "Do");
                            ("description", JStr "Do what you have to do")]))
                  [("title", JStr "Do");
                   ("description", JStr "Do what you have to do")]
                  eq_refl eq_refl eq_refl eq_refl
                  (or_intror (or_intror eq_refl)))).
Defined.

Lemma list_routes_404_or_ascending_witness :
  exists rows,
    sample_serve sample_db (mkRequest GET PersonsRule (inr admin) JNull)
    = (JsonResponse 200
         (JObj [("success", JBool true);
                ("persons", JArr (map Person.format rows));
                ("total_persons", JNum 2)]), sample_db) /\
    ascending Person.id rows /\ Permutation rows (persons sample_db).
Proof.
  refine (proj2 (proj2 (list_routes_404_or_ascending Block sample_describe
                          sample_code sample_db
                          (mkRequest GET PersonsRule (inr admin) JNull) eq_refl)
                   eq_refl eq_refl) _).
  discriminate.
Defined.

Lemma create_person_returns_listing_witness :
  sample_serve sample_db
    (mkRequest POST PersonsRule (inr admin) (JObj [("name", JStr "Mohamed")]))
  = (JsonResponse 200
       (JObj [("success", JBool true);
              ("created", JNum 3);
              ("persons",
               JArr [Person.format (Person.mk 1 "A");
                     Person.format (Person.mk 2 "B");
                     Person.format (Person.mk 3 "Mohamed")]);
              ("total_persons", JNum 3)]),
     mkDB [Person.mk 2 "B"; Person.mk 1 "A"; Person.mk 3 "Mohamed"]
          (quotes sample_db) 4 2).
Proof.
  exact (proj1 (create_person_returns_listing Block sample_describe sample_code
                  sample_db
                  (mkRequest POST PersonsRule (inr admin)
                     (JObj [("name", JStr "Mohamed")]))
                  [("name", JStr "Mohamed")] "Mohamed"
                  eq_refl eq_refl eq_refl eq_refl eq_refl)).
Defined.

Lemma edit_quote_unknown_id_404_witness :
  sample_serve sample_db
    (mkRequest PATCH (QuoteRule 99999) (inr admin)
       (JObj [("title", JStr "Do somethingelse")]))
  = (not_found, sample_db).
Proof.
  exact (proj1 (proj2 (edit_quote_unknown_id_404 Block sample_describe
                         sample_code sample_db
                         (mkRequest PATCH (QuoteRule 99999) (inr admin)
                            (JObj [("title", JStr "Do somethingelse")]))
                         99999 eq_refl eq_refl eq_refl)
                  eq_refl eq_refl)).
Defined.



Lemma edit_quote_title_only_witness :
  let request :=
    mkRequest PATCH (QuoteRule 1) (inr admin) (JObj [("title", JStr "X")]) in
  exists q',
    find_by Quote.id 1 (quotes (snd (sample_serve sample_db request))) = Some q' /\
    Quote.description q' = "Do what you have to do" /\
    Quote.person_id q' = 1.
Proof.
  exact (proj1 (proj2 (proj2 (proj2 (proj2
           (edit_quote_title_only Block sample_describe sample_code sample_db
              (mkRequest PATCH (QuoteRule 1) (inr admin)
                 (JObj [("title", JStr "X")]))
              1 [("title", JStr "X")]
              (Quote.mk 1 "Do" "Do what you have to do" 1)
              eq_refl eq_refl eq_refl eq_refl eq_refl eq_refl eq_refl)))))).
Defined.

Lemma edit_quote_applies_truthy_fields_witness :
  let request :=
    mkRequest PATCH (QuoteRule 1) (inr admin)
      (JObj [("title", JStr ""); ("description", JStr "Done");
             ("person_id", JNum 2)]) in
  fst (sample_serve sample_db request)
  = JsonResponse 200 (JObj [("success", JBool true); ("quote_id", JNum 1)]).
Proof.
  refine (f_equal fst (proj1
           (edit_quote_applies_truthy_fields Block sample_describe sample_code
              sample_db
              (mkRequest PATCH (QuoteRule 1) (inr admin)
                 (JObj [("title", JStr ""); ("description", JStr "Done");
                        ("person_id", JNum 2)]))
              1 [("title", JStr ""); ("description", JStr "Done");
                 ("person_id", JNum 2)]
              (Quote.mk 1 "Do" "Do what you have to do" 1)
              eq_refl eq_refl eq_refl eq_refl eq_refl _ _ _))).
  - discriminate.
  - discriminate.
  - intros _. exists 2. split; reflexivity.
Defined.

(** The two deletion policies on a person that a quote still names. *)
Example remove_person_blocked :
  full_dispatch_request Block sample_describe sample_code sample_db
    (mkRequest DELETE (PersonRule 1) (inr admin) JNull)
  = (unprocessable, sample_db).
Proof. reflexivity. Qed.

Example remove_person_cascades :
  full_dispatch_request Cascade sample_describe sample_code sample_db
    (mkRequest DELETE (PersonRule 1) (inr admin) JNull)
  = (JsonResponse 200 (JObj [("success", JBool true); ("id", JNum 1)]),
     mkDB [Person.mk 2 "B"] [] 3 2).
Proof. reflexivity. Qed.

(** ** Further properties of the routes *)

Section Service.
Variable policy : DeletePolicy.
Variable describe : AuthErrorKind -> string.
Variable code_of : AuthErrorKind -> Z.

Abbreviation serve := (full_dispatch_request policy describe code_of).

(** Case analysis on the URL map: one goal per method and rule, the
    protected ones once with the permission granted (the view runs) and
    once denied (the decorator raised). *)
Ltac enter_route request :=
  unfold full_dispatch_request, dispatch_request;
  destruct (method request) eqn:?Hm, (rule request) eqn:?Hr;
  try match goal with
      | |- context [requires_auth ?ds ?co ?perm ?f request] =>
          let Hgrant := fresh "Hgrant" in
          destruct (grants perm request) eqn:Hgrant;
          [ destruct (requires_auth_granted ds co perm f request Hgrant)
              as [?p [_ ->]]
          | destruct (requires_auth_denied ds co perm f request Hgrant)
              as [?k [-> _]] ]
      end.

Ltac open_view :=
  unfold index, get_quotes, get_persons, create_quote, create_person,
    edit_quote, edit_person, remove_quote, remove_person,
    Quote_query_all, Person_query_all, Quote_get_or_404, Person_get_or_404,
    Quote_insert, Person_insert, Quote_update, Quote_delete, Person_delete,
    commit, assign, try_except_abort, bind, py_get, abort, raise, ret;
  cbn [db dirty app flush].

Ltac split_match :=
  repeat match goal with
         | |- context [match ?x with _ => _ end] =>
             lazymatch x with
             | context [match _ with _ => _ end] => fail
             | _ => destruct x eqn:?
             end
         end.

Ltac all_routes request := enter_route request; open_view; split_match; cbn.

(** The same with the store's decisions opened up between the cases. *)
Ltac split_store :=
  repeat (cbn [db dirty app flush apply_change];
          match goal with
          | |- context [match ?x with _ => _ end] =>
              lazymatch x with
              | context [match _ with _ => _ end] => fail
              | _ => destruct x eqn:?
              end
          end).

(** X1: GET / is public: whatever the credentials and the body of the
    request, the answer is 200 with the running notice, and the database
    is not touched. *)
Theorem index_is_public (d : DB) (request : Request) :
  method request = GET ->
  rule request = Root ->
  serve d request
  = (JsonResponse 200
       (JObj [("success", JBool true);
              ("description", JStr "Quotation system is running.")]), d).
Proof.
  intros Hm Hr. unfold full_dispatch_request, dispatch_request.
  rewrite Hm, Hr. reflexivity.
Qed.

(** X2: no GET request writes: after any request with method GET the
    database is the one before it, whether the answer is a listing, a 404
    for an empty table, a 401 or the notice of the root. *)
Theorem get_never_writes (d : DB) (request : Request) :
  method request = GET -> snd (serve d request) = d.
Proof.
  intros Hget. revert Hget.
  all_routes request; intros; try discriminate; reflexivity.
Qed.

(** X3: a request that is not answered 200 has written nothing: on every
    route, 401, 404, 405, 422 and 500 leave the database as it was. *)
Theorem failure_leaves_store_unchanged (d : DB) (request : Request) :
  status_of (fst (serve d request)) <> 200 -> snd (serve d request) = d.
Proof.
  all_routes request; try reflexivity; congruence.
Qed.

(** X4: the only source of a 500 answer is a body that is not a JSON
    object on a POST or PATCH route, reached past the permission check:
    what the store refuses never surfaces as 500, and GET and DELETE never
    answer 500. *)
Theorem error_500_only_from_body (d : DB) (request : Request) :
  fst (serve d request) = ErrorPage 500 ->
  reads_body (method request) (rule request) = true /\
  is_object (get_json request) = false /\
  exists permission,
    required_permission (method request) (rule request) = Some permission /\
    grants permission request = true.
Proof.
  all_routes request; intros H; try discriminate H;
    (split; [reflexivity | split; [reflexivity|]]);
    eexists; (split; [reflexivity | assumption]).
Qed.

(** X5: the uniform envelope of the JSON answers: whenever a view or a
    registered error handler answers with JSON, the body is an object
    whose [success] field is true exactly when the status is 200, the
    status is one of 200, 401, 404 and 422, and on 404 and 422 the [error]
    field repeats the status. *)
Theorem response_envelope (d : DB) (request : Request) (st : Z) (body : json) :
  fst (serve d request) = JsonResponse st body ->
  exists fields,
    body = JObj fields /\
    dict_get "success" fields = JBool (st =? 200) /\
    In st [200; 401; 404; 422] /\
    (st = 404 \/ st = 422 -> dict_get "error" fields = JNum st).
Proof.
  all_routes request; intros H; try discriminate H;
    injection H as <- <-;
    (eexists; split; [reflexivity|]);
    (split; [reflexivity|]);
    (split; [simpl; tauto|]);
    intros [E | E]; first [discriminate E | reflexivity].
Qed.

Ltac enter_granted Hm Hr Hgrant :=
  unfold full_dispatch_request, dispatch_request; rewrite Hm, Hr;
  match goal with
  | |- context [requires_auth ?ds ?co ?perm ?f ?request] =>
      destruct (requires_auth_granted ds co perm f request Hgrant)
        as [?p [_ ->]]
  end.

(** X6: 401 is answered only on a protected route to a request that the
    permission check turns away; with the permission granted no route
    answers 401. *)
Theorem status_401_only_when_denied (d : DB) (request : Request) :
  status_of (fst (serve d request)) = 401 ->
  exists permission,
    required_permission (method request) (rule request) = Some permission /\
    grants permission request = false.
Proof.
  all_routes request; intros H; try discriminate H;
    eexists; (split; [reflexivity | assumption]).
Qed.

(** X7: the views of GET and DELETE never read the body: two requests
    with the same method, rule and credentials on a route other than POST
    and PATCH get the same answer and leave the same database. *)
Theorem body_ignored_by_get_and_delete (d : DB) (r1 r2 : Request) :
  method r1 = method r2 ->
  rule r1 = rule r2 ->
  authorization r1 = authorization r2 ->
  reads_body (method r1) (rule r1) = false ->
  serve d r1 = serve d r2.
Proof.
  destruct r1 as [m1 u1 a1 b1], r2 as [m2 u2 a2 b2]. simpl.
  intros <- <- <- Hreads.
  unfold full_dispatch_request, dispatch_request, requires_auth. simpl.
  destruct m1, u1; try discriminate Hreads; reflexivity.
Qed.

(** X8: POST /persons with the create:person permission and a JSON object
    whose name is null or absent answers 422 and inserts nothing. *)
Theorem create_person_null_name_422 (d : DB) (request : Request)
    (fields : list (string * json)) :
  method request = POST ->
  rule request = PersonsRule ->
  grants "create:person" request = true ->
  get_json request = JObj fields ->
  dict_get "name" fields = JNull ->
  serve d request = (unprocessable, d).
Proof.
  intros Hm Hr Hgrant Hbody Hname.
  enter_granted Hm Hr Hgrant.
  unfold create_person, bind, py_get. rewrite Hbody. cbv [ret].
  rewrite Hname. reflexivity.
Qed.

(** X9: POST /quotes with the create:quote permission, a title and a
    description that are strings (the empty string included) and a
    person_id that names a stored person answers 200; [created] is the id
    of the new row, [quotes] the whole listing after the insert and
    [total_quotes] its length, one more than before; the persons table is
    as it was. *)
Theorem create_quote_returns_listing (d : DB) (request : Request)
    (fields : list (string * json)) (t ds : string) (n : Z) :
  method request = POST ->
  rule request = QuotesRule ->
  grants "create:quote" request = true ->
  get_json request = JObj fields ->
  dict_get "title" fields = JStr t ->
  dict_get "description" fields = JStr ds ->
  dict_get "person_id" fields = JNum n ->
  person_exists n d = true ->
  let created := quotes_seq d in
  let d' := mkDB (persons d) (quotes d ++ [Quote.mk created t ds n])
                 (persons_seq d) (quotes_seq d + 1) in
  serve d request
  = (JsonResponse 200
       (JObj [("success", JBool true);
              ("created", JNum created);
              ("quotes",
               JArr (map Quote.format (order_by Quote.id (quotes d'))));
              ("total_quotes", JNum (Z.of_nat (List.length (quotes d)) + 1))]),
     d').
Proof.
  intros Hm Hr Hgrant Hbody Ht Hds Hn Hex created d'.
  enter_granted Hm Hr Hgrant.
  unfold create_quote, bind, py_get, try_except_abort, Quote_insert,
    Quote_query_all.
  rewrite Hbody. cbv [ret]. rewrite Ht, Hds, Hn.
  cbn [is_None orb db dirty flush apply_change as_string as_int].
  rewrite Hex. cbn [db quotes].
  rewrite length_map, (order_by_length Quote.id), length_app, Nat2Z.inj_add.
  reflexivity.
Qed.

(** X10: POST /quotes whose person_id is a number that names no stored
    person answers 422 and inserts nothing, whatever the title and the
    description: the refusal of the store is caught by the bare [except]. *)
Theorem create_quote_unknown_person_422 (d : DB) (request : Request)
    (fields : list (string * json)) (n : Z) :
  method request = POST ->
  rule request = QuotesRule ->
  grants "create:quote" request = true ->
  get_json request = JObj fields ->
  dict_get "person_id" fields = JNum n ->
  person_exists n d = false ->
  serve d request = (unprocessable, d).
Proof.
  intros Hm Hr Hgrant Hbody Hn Hex.
  enter_granted Hm Hr Hgrant.
  unfold create_quote, bind, py_get, try_except_abort, Quote_insert,
    Quote_query_all.
  rewrite Hbody. cbv [ret]. rewrite Hn.
  destruct (dict_get "title" fields), (dict_get "description" fields);
    cbn [is_None orb db dirty flush apply_change as_string as_int];
    rewrite ?Hex; reflexivity.
Qed.

(** X11: PATCH /persons/{id} with the edit:person permission and a JSON
    object answers 404 when no stored person has the id. *)
Theorem edit_person_unknown_id_404 (d : DB) (request : Request) (id : Z) :
  method request = PATCH ->
  rule request = PersonRule id ->
  grants "edit:person" request = true ->
  is_object (get_json request) = true ->
  find_by Person.id id (persons d) = None ->
  serve d request = (not_found, d).
Proof.
  intros Hm Hr Hgrant Hobj Hfind.
  enter_granted Hm Hr Hgrant.
  unfold edit_person, bind, py_get, Person_get_or_404.
  destruct (get_json request); try discriminate Hobj.
  cbv [ret]. cbn [db]. rewrite Hfind. reflexivity.
Qed.

(** X12: PATCH /persons/{id} on a stored person answers 200 with the id
    whatever the name in the JSON object is, a number or a list included:
    the view hands nothing to the store, so no value is ever refused. *)
Theorem edit_person_any_name_200 (d : DB) (request : Request) (id : Z)
    (p : Person.t) :
  method request = PATCH ->
  rule request = PersonRule id ->
  grants "edit:person" request = true ->
  is_object (get_json request) = true ->
  find_by Person.id id (persons d) = Some p ->
  serve d request
  = (JsonResponse 200 (JObj [("success", JBool true); ("person_id", JNum id)]),
     d).
Proof.
  intros Hm Hr Hgrant Hobj Hfind.
  enter_granted Hm Hr Hgrant.
  unfold edit_person, bind, py_get, Person_get_or_404, try_except_abort, assign.
  destruct (get_json request); try discriminate Hobj.
  cbv [ret]. cbn [db]. rewrite Hfind.
  apply find_by_key in Hfind as [-> _].
  destruct (truthy (dict_get "name" fields)); reflexivity.
Qed.

(** X13: PATCH /quotes/{id} is all or nothing: when the person_id given
    is a non-zero integer that names no stored person, the answer is 422
    and no field is written, whatever title and description come with it. *)
Theorem edit_quote_refused_is_atomic (d : DB) (request : Request) (id : Z)
    (fields : list (string * json)) (q : Quote.t) (n : Z) :
  method request = PATCH ->
  rule request = QuoteRule id ->
  grants "edit:quote" request = true ->
  get_json request = JObj fields ->
  find_by Quote.id id (quotes d) = Some q ->
  dict_get "person_id" fields = JNum n ->
  n <> 0 ->
  person_exists n d = false ->
  serve d request = (unprocessable, d) /\
  status_of (fst (serve d request)) = 422.
Proof.
  intros Hm Hr Hgrant Hbody Hfind Hpid Hn Hex.
  assert (serve d request = (unprocessable, d)) as Hrun.
  { enter_granted Hm Hr Hgrant.
    unfold edit_quote, bind, py_get, Quote_get_or_404, try_except_abort,
      Quote_update, commit, assign.
    rewrite Hbody. cbv [ret]. cbn [db dirty]. rewrite Hfind, Hpid.
    assert (truthy (JNum n) = true) as ->
        by (simpl; apply negb_true_iff, Z.eqb_neq, Hn).
    destruct (truthy (dict_get "title" fields)),
      (truthy (dict_get "description" fields));
      cbn [db dirty app flush apply_change as_int];
      destruct (as_string (dict_get "title" fields)),
        (as_string (dict_get "description" fields));
      cbn [flush apply_change as_int];
      rewrite ?person_exists_with_quotes, ?Hex; reflexivity. }
  rewrite Hrun. split; reflexivity.
Qed.

(** X14: PATCH /quotes/{id} on a stored quote with every field absent,
    null or otherwise falsy (an empty object, empty strings, 0) answers 200
    with the id and writes nothing. *)
Theorem edit_quote_nothing_truthy_noop (d : DB) (request : Request) (id : Z)
    (fields : list (string * json)) (q : Quote.t) :
  method request = PATCH ->
  rule request = QuoteRule id ->
  grants "edit:quote" request = true ->
  get_json request = JObj fields ->
  find_by Quote.id id (quotes d) = Some q ->
  truthy (dict_get "title" fields) = false ->
  truthy (dict_get "description" fields) = false ->
  truthy (dict_get "person_id" fields) = false ->
  serve d request
  = (JsonResponse 200 (JObj [("success", JBool true); ("quote_id", JNum id)]),
     d).
Proof.
  intros Hm Hr Hgrant Hbody Hfind Ht Hds Hp.
  enter_granted Hm Hr Hgrant.
  unfold edit_quote, bind, py_get, Quote_get_or_404, try_except_abort,
    Quote_update, commit, assign.
  rewrite Hbody. cbv [ret]. cbn [db dirty]. rewrite Hfind, Ht, Hds, Hp.
  apply find_by_key in Hfind as [-> _]. reflexivity.
Qed.

Lemma find_by_remove_by_same {A} (key : A -> Z) (i : Z) (l : list A) :
  find_by key i (remove_by key i l) = None.
Proof.
  unfold find_by, remove_by.
  induction l as [|x rest IH]; simpl; [reflexivity|].
  destruct (key x =? i) eqn:E; simpl; [exact IH|].
  rewrite E. exact IH.
Qed.

Lemma order_by_app_not_nil {A} (key : A -> Z) (l : list A) (x : A) :
  order_by key (l ++ [x]) <> [].
Proof.
  intros H. apply order_by_nil in H.
  apply app_eq_nil in H as [_ H]. discriminate H.
Qed.

(** X15: PATCH /quotes/{id} reaches no other row: whatever the request,
    the persons table, both id sequences and the ids of the quotes are as
    before, and every quote with another id is found unchanged. *)
Theorem edit_quote_touches_one_id (d : DB) (request : Request) (id : Z) :
  method request = PATCH ->
  rule request = QuoteRule id ->
  let d' := snd (serve d request) in
  persons d' = persons d /\
  persons_seq d' = persons_seq d /\
  quotes_seq d' = quotes_seq d /\
  map Quote.id (quotes d') = map Quote.id (quotes d) /\
  forall j, j <> id ->
    find_by Quote.id j (quotes d') = find_by Quote.id j (quotes d).
Proof.
  intros Hm Hr. cbv zeta.
  unfold full_dispatch_request, dispatch_request. rewrite Hm, Hr.
  destruct (grants "edit:quote" request) eqn:Hgrant.
  - destruct (requires_auth_granted describe code_of "edit:quote"
                (fun jwt => edit_quote policy request jwt id) request Hgrant)
      as [p [_ ->]].
    open_view.
    destruct (get_json request); try (cbn; repeat split; reflexivity).
    cbn [db dirty].
    destruct (find_by Quote.id id (quotes d)) as [q|] eqn:Hfind;
      [|cbn; repeat split; reflexivity].
    apply find_by_key in Hfind as [-> _].
    destruct (truthy (dict_get "title" fields)),
      (truthy (dict_get "description" fields)),
      (truthy (dict_get "person_id" fields));
      cbn [db dirty app flush apply_change];
      split_match;
      cbn [fst snd db persons quotes persons_seq quotes_seq with_quotes];
      repeat split; try reflexivity;
      try (rewrite ?map_update_by by reflexivity; reflexivity);
      intros j Hj;
      rewrite ?find_by_update_other by (try reflexivity; congruence);
      reflexivity.
  - destruct (requires_auth_denied describe code_of "edit:quote"
                (fun jwt => edit_quote policy request jwt id) request Hgrant)
      as [k [-> _]].
    cbn. repeat split; reflexivity.
Qed.

(** X16: DELETE /quotes/{id} reaches no other row: whatever the request,
    the persons table is as before and every quote with another id is
    found unchanged. *)
Theorem remove_quote_touches_one_id (d : DB) (request : Request) (id : Z) :
  method request = DELETE ->
  rule request = QuoteRule id ->
  let d' := snd (serve d request) in
  persons d' = persons d /\
  forall j, j <> id ->
    find_by Quote.id j (quotes d') = find_by Quote.id j (quotes d).
Proof.
  intros Hm Hr. cbv zeta.
  unfold full_dispatch_request, dispatch_request. rewrite Hm, Hr.
  destruct (grants "remove:quote" request) eqn:Hgrant.
  - destruct (requires_auth_granted describe code_of "remove:quote"
                (fun jwt => remove_quote policy jwt id) request Hgrant)
      as [p [_ ->]].
    open_view.
    destruct (find_by Quote.id id (quotes d)) as [q|] eqn:Hfind;
      [|cbn; split; reflexivity].
    apply find_by_key in Hfind as [-> _].
    cbn. split; [reflexivity|].
    intros j Hj. apply remove_by_keeps. congruence.
  - destruct (requires_auth_denied describe code_of "remove:quote"
                (fun jwt => remove_quote policy jwt id) request Hgrant)
      as [k [-> _]].
    cbn. split; reflexivity.
Qed.

(** X17: DELETE /persons/{id} reaches no other person, and of the quotes
    it can only take those of that person: every person with another id
    is found unchanged, no quote appears or changes, and every quote of
    another person stays. *)
Theorem remove_person_touches_one_id (d : DB) (request : Request) (id : Z) :
  method request = DELETE ->
  rule request = PersonRule id ->
  let d' := snd (serve d request) in
  (forall j, j <> id ->
     find_by Person.id j (persons d') = find_by Person.id j (persons d)) /\
  (forall q, In q (quotes d') -> In q (quotes d)) /\
  (forall q, In q (quotes d) -> Quote.person_id q <> id -> In q (quotes d')).
Proof.
  intros Hm Hr. cbv zeta.
  unfold full_dispatch_request, dispatch_request. rewrite Hm, Hr.
  destruct (grants "remove:person" request) eqn:Hgrant.
  - destruct (requires_auth_granted describe code_of "remove:person"
                (fun jwt => remove_person policy jwt id) request Hgrant)
      as [p [_ ->]].
    open_view.
    destruct (find_by Person.id id (persons d)) as [q|] eqn:Hfind;
      [|cbn; repeat split; auto].
    apply find_by_key in Hfind as [-> _].
    cbn [db dirty app flush apply_change].
    destruct (referenced id d); [destruct policy|];
      cbn; (split; [|split]); auto;
      try (intros j Hj; apply remove_by_keeps; congruence).
    + intros x Hin. apply filter_In in Hin. tauto.
    + intros x Hin Hne. apply filter_In. split; [exact Hin|].
      apply negb_true_iff, Z.eqb_neq, Hne.
  - destruct (requires_auth_denied describe code_of "remove:person"
                (fun jwt => remove_person policy jwt id) request Hgrant)
      as [k [-> _]].
    cbn. repeat split; auto.
Qed.

(** X18: a POST request changes no stored row and removes none: the
    database afterwards is the one before, or the one before with a single
    person appended under the next id of the persons sequence (on
    /persons), or with a single quote appended under the next id of the
    quotes sequence, naming a stored person (on /quotes). *)
Theorem post_appends_at_most_one_row (d : DB) (request : Request) :
  method request = POST ->
  let d' := snd (serve d request) in
  d' = d \/
  (exists p,
      rule request = PersonsRule /\
      Person.id p = persons_seq d /\
      d' = mkDB (persons d ++ [p]) (quotes d) (persons_seq d + 1) (quotes_seq d)) \/
  (exists q,
      rule request = QuotesRule /\
      Quote.id q = quotes_seq d /\
      person_exists (Quote.person_id q) d = true /\
      d' = mkDB (persons d) (quotes d ++ [q]) (persons_seq d) (quotes_seq d + 1)).
Proof.
  intros Hpost. cbv zeta. revert Hpost.
  enter_route request; open_view; split_store; cbn;
    intros Hpost; try discriminate Hpost;
    first [ left; reflexivity
          | right; left; eexists; repeat split; reflexivity
          | right; right; eexists; repeat split;
            first [reflexivity | eassumption] ].
Qed.

(** X19: the listing that a successful POST returns is the listing that
    the next GET of the same table returns: after POST /persons (or POST
    /quotes) answered 200, an authorized GET /persons (GET /quotes) on the
    resulting database answers 200 with the same array and the same
    total. *)
Theorem listing_after_create (d d' : DB) (post get : Request)
    (created listing total : json) :
  method post = POST ->
  method get = GET ->
  (rule post = PersonsRule ->
   rule get = PersonsRule ->
   grants "get:persons" get = true ->
   serve d post
   = (JsonResponse 200
        (JObj [("success", JBool true); ("created", created);
               ("persons", listing); ("total_persons", total)]), d') ->
   serve d' get
   = (JsonResponse 200
        (JObj [("success", JBool true);
               ("persons", listing); ("total_persons", total)]), d')) /\
  (rule post = QuotesRule ->
   rule get = QuotesRule ->
   grants "get:quotes" get = true ->
   serve d post
   = (JsonResponse 200
        (JObj [("success", JBool true); ("created", created);
               ("quotes", listing); ("total_quotes", total)]), d') ->
   serve d' get
   = (JsonResponse 200
        (JObj [("success", JBool true);
               ("quotes", listing); ("total_quotes", total)]), d')).
Proof.
  intros Hpost Hget. split; intros Hr Hr' Hgrant.
  - unfold full_dispatch_request at 1. unfold dispatch_request.
    rewrite Hpost, Hr.
    destruct (grants "create:person" post) eqn:Hcreate.
    + destruct (requires_auth_granted describe code_of "create:person"
                  (create_person policy post) post Hcreate) as [p [_ ->]].
      open_view. split_store; intros H; try discriminate H.
      injection H as <- <- <- <-.
      enter_granted Hget Hr' Hgrant. open_view. cbn [db persons].
      match goal with
      | |- context [order_by ?key ?l] => destruct (order_by key l) eqn:E
      end; [apply order_by_app_not_nil in E; contradiction|].
      reflexivity.
    + destruct (requires_auth_denied describe code_of "create:person"
                  (create_person policy post) post Hcreate) as [k [-> _]].
      discriminate.
  - unfold full_dispatch_request at 1. unfold dispatch_request.
    rewrite Hpost, Hr.
    destruct (grants "create:quote" post) eqn:Hcreate.
    + destruct (requires_auth_granted describe code_of "create:quote"
                  (create_quote policy post) post Hcreate) as [p [_ ->]].
      open_view. split_store; intros H; try discriminate H.
      injection H as <- <- <- <-.
      enter_granted Hget Hr' Hgrant. open_view. cbn [db quotes].
      rewrite length_map.
      match goal with
      | |- context [order_by ?key ?l] => destruct (order_by key l) eqn:E
      end; [apply order_by_app_not_nil in E; contradiction|].
      reflexivity.
    + destruct (requires_auth_denied describe code_of "create:quote"
                  (create_quote policy post) post Hcreate) as [k [-> _]].
      discriminate.
Qed.

(** X20: a row is deleted once: after DELETE /quotes/{id} (or DELETE
    /persons/{id}) answered 200, an authorized DELETE of the same id on
    the resulting database answers 404 and leaves it as it is. *)
Theorem delete_twice_is_404 (d d' : DB) (first second : Request) (id : Z)
    (body : json) :
  method first = DELETE ->
  method second = DELETE ->
  (rule first = QuoteRule id ->
   rule second = QuoteRule id ->
   grants "remove:quote" second = true ->
   serve d first = (JsonResponse 200 body, d') ->
   serve d' second = (not_found, d')) /\
  (rule first = PersonRule id ->
   rule second = PersonRule id ->
   grants "remove:person" second = true ->
   serve d first = (JsonResponse 200 body, d') ->
   serve d' second = (not_found, d')).
Proof.
  intros Hfirst Hsecond. split; intros Hr Hr' Hgrant.
  - unfold full_dispatch_request at 1. unfold dispatch_request.
    rewrite Hfirst, Hr.
    destruct (grants "remove:quote" first) eqn:Hremove.
    + destruct (requires_auth_granted describe code_of "remove:quote"
                  (fun jwt => remove_quote policy jwt id) first Hremove)
        as [p [_ ->]].
      open_view. split_store; intros H; try discriminate H.
      injection H as <- <-.
      match goal with
      | Hfind : find_by _ _ _ = Some _ |- _ =>
          apply find_by_key in Hfind as [-> _]
      end.
      enter_granted Hsecond Hr' Hgrant. open_view. cbn [db quotes with_quotes].
      rewrite find_by_remove_by_same. reflexivity.
    + destruct (requires_auth_denied describe code_of "remove:quote"
                  (fun jwt => remove_quote policy jwt id) first Hremove)
        as [k [-> _]].
      discriminate.
  - unfold full_dispatch_request at 1. unfold dispatch_request.
    rewrite Hfirst, Hr.
    destruct (grants "remove:person" first) eqn:Hremove.
    + destruct (requires_auth_granted describe code_of "remove:person"
                  (fun jwt => remove_person policy jwt id) first Hremove)
        as [p [_ ->]].
      open_view. split_store; intros H; try discriminate H;
        injection H as <- <-;
        match goal with
        | Hfind : find_by _ _ _ = Some _ |- _ =>
            apply find_by_key in Hfind as [-> _]
        end;
        enter_granted Hsecond Hr' Hgrant; open_view;
        cbn [db persons with_persons];
        rewrite find_by_remove_by_same; reflexivity.
    + destruct (requires_auth_denied describe code_of "remove:person"
                  (fun jwt => remove_person policy jwt id) first Hremove)
        as [k [-> _]].
      discriminate.
Qed.

(** *** Well-formed databases *)

Lemma person_exists_In (n : Z) (d : DB) :
  person_exists n d = true <-> In n (map Person.id (persons d)).
Proof.
  unfold person_exists. rewrite existsb_exists, in_map_iff.
  split; intros [p [H1 H2]]; exists p.
  - apply Z.eqb_eq in H2. auto.
  - split; [exact H2 | apply Z.eqb_eq, H1].
Qed.

Lemma In_update_by {A} (key : A -> Z) (i : Z) (f : A -> A) (l : list A) (y : A) :
  In y (update_by key i f l) -> exists x, In x l /\ (y = x \/ y = f x).
Proof.
  unfold update_by. rewrite in_map_iff. intros [x [Hy Hin]].
  exists x. split; [exact Hin|].
  destruct (key x =? i); auto.
Qed.

Lemma NoDup_map_remove_by {A} (key g : A -> Z) (i : Z) (l : list A) :
  NoDup (map key l) -> NoDup (map key (remove_by g i l)).
Proof.
  unfold remove_by.
  induction l as [|x rest IH]; simpl; intros Hnd; [constructor|].
  inversion Hnd as [|? ? Hnotin Hrest]; subst.
  destruct (negb (g x =? i)); simpl; [|auto].
  constructor; [|auto].
  rewrite in_map_iff. intros [y [Hy Hin]].
  apply filter_In in Hin as [Hin _].
  apply Hnotin. rewrite in_map_iff. eauto.
Qed.

Lemma NoDup_snoc (l : list Z) (x : Z) :
  NoDup l -> ~ In x l -> NoDup (l ++ [x]).
Proof.
  intros Hnd Hx.
  apply (Permutation_NoDup (Permutation_cons_append l x)).
  constructor; assumption.
Qed.

Lemma person_survives (n i : Z) (d : DB) :
  person_exists n d = true -> n <> i ->
  In n (map Person.id (remove_by Person.id i (persons d))).
Proof.
  rewrite person_exists_In, !in_map_iff. intros [p [Hid Hin]] Hne.
  exists p. split; [exact Hid|].
  apply filter_In. split; [exact Hin|].
  apply negb_true_iff, Z.eqb_neq. congruence.
Qed.

Lemma unreferenced_person (i : Z) (d : DB) (q : Quote.t) :
  referenced i d = false -> In q (quotes d) -> Quote.person_id q <> i.
Proof.
  unfold referenced. intros Href Hin Heq.
  assert (existsb (fun q => Quote.person_id q =? i) (quotes d) = true) as H.
  { apply existsb_exists. exists q. split; [exact Hin | apply Z.eqb_eq, Heq]. }
  congruence.
Qed.

Lemma apply_change_well_formed (c : Change) (d d' : DB) :
  well_formed d -> apply_change policy c d = Some d' -> well_formed d'.
Proof.
  intros [Hbelow [[Hup Huq] Href]] Happly.
  pose proof Hbelow as [Hbp Hbq].
  destruct c as [i v | i v | i v | i v | v | t ds p | i | i]; simpl in Happly.
  - destruct (as_string v) as [s|]; [|discriminate]. injection Happly as <-.
    repeat split; simpl; auto.
    + intros p Hin. apply In_update_by in Hin as [x [Hin [-> | ->]]];
        apply (Hbp x Hin).
    + rewrite map_update_by by reflexivity. exact Hup.
    + intros q Hin. apply person_exists_In. simpl.
      rewrite map_update_by by reflexivity.
      apply person_exists_In, Href, Hin.
  - destruct (as_string v) as [s|]; [|discriminate]. injection Happly as <-.
    repeat split; simpl; auto.
    + intros q Hin. apply In_update_by in Hin as [x [Hin [-> | ->]]];
        apply (Hbq x Hin).
    + rewrite map_update_by by reflexivity. exact Huq.
    + intros q Hin. apply In_update_by in Hin as [x [Hin [-> | ->]]];
        apply (Href x Hin).
  - destruct (as_string v) as [s|]; [|discriminate]. injection Happly as <-.
    repeat split; simpl; auto.
    + intros q Hin. apply In_update_by in Hin as [x [Hin [-> | ->]]];
        apply (Hbq x Hin).
    + rewrite map_update_by by reflexivity. exact Huq.
    + intros q Hin. apply In_update_by in Hin as [x [Hin [-> | ->]]];
        apply (Href x Hin).
  - destruct (as_int v) as [n|]; [|discriminate].
    destruct (person_exists n d) eqn:Hex; [|discriminate].
    injection Happly as <-.
    repeat split; simpl; auto.
    + intros q Hin. apply In_update_by in Hin as [x [Hin [-> | ->]]];
        apply (Hbq x Hin).
    + rewrite map_update_by by reflexivity. exact Huq.
    + intros q Hin. apply In_update_by in Hin as [x [Hin [-> | ->]]];
        [apply (Href x Hin) | exact Hex].
  - destruct (AddPerson_id_fresh policy d d' v Hbelow Happly) as [Hfresh Hbelow'].
    simpl in Happly.
    destruct (as_string v) as [s|]; [|discriminate]. injection Happly as <-.
    split; [exact Hbelow'|]. repeat split; simpl; auto.
    + rewrite map_app. apply NoDup_snoc; assumption.
    + intros q Hin. apply person_exists_In. simpl.
      rewrite map_app. apply in_or_app. left.
      apply person_exists_In, Href, Hin.
  - destruct (AddQuote_id_fresh policy d d' t ds p Hbelow Happly)
      as [Hfresh Hbelow'].
    simpl in Happly.
    destruct (as_string t) as [t'|]; [|discriminate].
    destruct (as_string ds) as [ds'|]; [|discriminate].
    destruct (as_int p) as [n|]; [|discriminate].
    destruct (person_exists n d) eqn:Hex; [|discriminate].
    injection Happly as <-.
    split; [exact Hbelow'|]. repeat split; simpl; auto.
    + rewrite map_app. apply NoDup_snoc; assumption.
    + intros q Hin. apply in_app_or in Hin as [Hin | [<- | []]];
        [apply (Href q Hin) | exact Hex].
  - assert (forall d1,
               persons d1 = remove_by Person.id i (persons d) ->
               persons_seq d1 = persons_seq d ->
               quotes_seq d1 = quotes_seq d ->
               (forall q, In q (quotes d1) ->
                          In q (quotes d) /\ Quote.person_id q <> i) ->
               NoDup (map Quote.id (quotes d1)) ->
               well_formed d1) as Hgone.
    { intros d1 Hp Hps Hqs Hq Hnd. repeat split.
      - rewrite Hp, Hps. intros p Hin. apply filter_In in Hin as [Hin _].
        apply (Hbp p Hin).
      - rewrite Hqs. intros q Hin. apply Hq in Hin as [Hin _].
        apply (Hbq q Hin).
      - rewrite Hp. apply NoDup_map_remove_by, Hup.
      - exact Hnd.
      - intros q Hin. apply Hq in Hin as [Hin Hne].
        apply person_exists_In. rewrite Hp.
        apply person_survives; [apply (Href q Hin) | exact Hne]. }
    destruct (referenced i d) eqn:Hrefd.
    + destruct policy; [|discriminate]. injection Happly as <-.
      apply Hgone; simpl; auto.
      * intros q Hin. apply filter_In in Hin as [Hin Hne].
        split; [exact Hin|]. apply negb_true_iff, Z.eqb_neq in Hne. exact Hne.
      * apply NoDup_map_remove_by, Huq.
    + injection Happly as <-.
      apply Hgone; simpl; auto.
      intros q Hin. split; [exact Hin|].
      apply (unreferenced_person i d q Hrefd Hin).
  - injection Happly as <-.
    repeat split; simpl; auto.
    + intros q Hin. apply filter_In in Hin as [Hin _]. apply (Hbq q Hin).
    + apply NoDup_map_remove_by, Huq.
    + intros q Hin. apply filter_In in Hin as [Hin _]. apply (Href q Hin).
Qed.

Lemma flush_well_formed (cs : list Change) (d d' : DB) :
  well_formed d -> flush policy cs d = Some d' -> well_formed d'.
Proof.
  revert d. induction cs as [|c rest IH]; simpl; intros d Hwf Hflush.
  - injection Hflush as <-. exact Hwf.
  - destruct (apply_change policy c d) as [d1|] eqn:Happly; [|discriminate].
    apply (IH d1); [|exact Hflush].
    apply (apply_change_well_formed c d d1 Hwf Happly).
Qed.

(** X21: every request keeps the database well formed: if before the
    request all ids lie below their sequences, no two rows of a table
    share an id and every quote names a stored person, then the same holds
    after it, on every route and whatever the answer. *)
Theorem every_request_keeps_well_formed (d : DB) (request : Request) :
  well_formed d -> well_formed (snd (serve d request)).
Proof.
  intros Hwf.
  enter_route request; open_view; split_match; cbn [fst snd db];
    eauto using flush_well_formed, apply_change_well_formed.
Qed.

Lemma remove_by_snoc_fresh {A} (key : A -> Z) (l : list A) (x : A) :
  ~ In (key x) (map key l) -> remove_by key (key x) (l ++ [x]) = l.
Proof.
  unfold remove_by. intros Hfresh. rewrite filter_app. simpl.
  rewrite Z.eqb_refl. simpl. rewrite app_nil_r.
  induction l as [|y rest IH]; simpl; [reflexivity|].
  simpl in Hfresh.
  destruct (key y =? key x) eqn:E; simpl.
  - apply Z.eqb_eq in E. tauto.
  - f_equal. apply IH. tauto.
Qed.

Lemma find_by_snoc {A} (key : A -> Z) (l : list A) (x : A) :
  exists y, find_by key (key x) (l ++ [x]) = Some y.
Proof.
  unfold find_by.
  destruct (find (fun y => key y =? key x) (l ++ [x])) as [y|] eqn:E;
    [eauto|].
  assert (In x (l ++ [x])) as Hin by (apply in_or_app; right; left; reflexivity).
  pose proof (find_none _ _ E x Hin) as H. simpl in H.
  rewrite Z.eqb_refl in H. discriminate H.
Qed.

Lemma fresh_person_unreferenced (d : DB) :
  well_formed d -> referenced (persons_seq d) d = false.
Proof.
  intros [[Hbp _] [_ Href]]. unfold referenced.
  destruct (existsb _ (quotes d)) eqn:E; [|reflexivity].
  apply existsb_exists in E as [q [Hin Heq]].
  apply Z.eqb_eq in Heq.
  pose proof (Href q Hin) as Hex.
  apply person_exists_In, in_map_iff in Hex as [p [Hid Hp]].
  specialize (Hbp p Hp). lia.
Qed.

(** X22: creating a person and deleting it again restores the tables: on
    a well-formed database, after POST /persons answered 200 with
    [created] = c, an authorized DELETE /persons/c answers 200 with that
    id, and the rows of both tables are then the rows before the POST. *)
Theorem create_person_then_delete (d d1 : DB) (post delete : Request) (c : Z)
    (listing total : json) :
  well_formed d ->
  method post = POST ->
  rule post = PersonsRule ->
  serve d post
  = (JsonResponse 200
       (JObj [("success", JBool true); ("created", JNum c);
              ("persons", listing); ("total_persons", total)]), d1) ->
  method delete = DELETE ->
  rule delete = PersonRule c ->
  grants "remove:person" delete = true ->
  exists d2,
    serve d1 delete
    = (JsonResponse 200 (JObj [("success", JBool true); ("id", JNum c)]), d2) /\
    persons d2 = persons d /\ quotes d2 = quotes d.
Proof.
  intros Hwf Hpost Hr.
  unfold full_dispatch_request at 1. unfold dispatch_request.
  rewrite Hpost, Hr.
  destruct (grants "create:person" post) eqn:Hcreate.
  - destruct (requires_auth_granted describe code_of "create:person"
                (create_person policy post) post Hcreate) as [p [_ ->]].
    open_view. split_store; intros H; try discriminate H.
    injection H as <- <- <- <-.
    intros Hdelete Hr' Hgrant.
    enter_granted Hdelete Hr' Hgrant. open_view. cbn [db persons].
    match goal with
    | |- context [find_by Person.id _ (?l ++ [?x])] =>
        destruct (find_by_snoc Person.id l x) as [y Hy];
        cbn [Person.id] in Hy; rewrite Hy;
        apply find_by_key in Hy as [Hid _]; rewrite Hid;
        pose proof (remove_by_snoc_fresh Person.id l x) as Hrows
    end.
    cbn [db dirty app flush apply_change].
    match goal with
    | |- context [referenced ?i ?d1] =>
        change (referenced i d1) with (referenced (persons_seq d) d)
    end.
    rewrite (fresh_person_unreferenced d Hwf).
    eexists. split; [reflexivity|].
    cbn. split; [|reflexivity].
    apply Hrows. cbn [Person.id].
    destruct Hwf as [[Hbp _] _].
    rewrite in_map_iff. intros [z [Hid' Hin]]. specialize (Hbp z Hin). lia.
  - destruct (requires_auth_denied describe code_of "create:person"
                (create_person policy post) post Hcreate) as [k [-> _]].
    discriminate.
Qed.

(** X23: without a verified token only the root answers 200: for a
    request with one of the methods the views are registered for (GET,
    POST, PATCH, DELETE) whose bearer header failed validation, the status
    is 200 exactly for GET /, whatever the rule and the body. *)
Theorem unauthenticated_only_root (d : DB) (request : Request)
    (k : AuthErrorKind) :
  authorization request = inl k ->
  status_of (fst (serve d request)) = 200 <->
  method request = GET /\ rule request = Root.
Proof.
  intros Hauth.
  assert (forall permission, grants permission request = false) as Hnone.
  { intros permission. unfold grants. rewrite Hauth. reflexivity. }
  enter_route request;
    try match goal with
        | H : grants _ request = true |- _ => rewrite Hnone in H; discriminate H
        end;
    cbn; split;
    solve [ intros H; discriminate H
          | intros [H1 H2]; discriminate
          | intros _; split; reflexivity
          | intros _; reflexivity ].
Qed.
End Service.

(** ** The further properties on the sample data *)

Lemma index_is_public_witness :
  sample_serve sample_db (mkRequest GET Root (inl Expired) JNull)
  = (JsonResponse 200
       (JObj [("success", JBool true);
              ("description", JStr "Quotation system is running.")]),
     sample_db).
Proof.
  exact (index_is_public Block sample_describe sample_code sample_db
           (mkRequest GET Root (inl Expired) JNull) eq_refl eq_refl).
Defined.

Lemma get_never_writes_witness :
  snd (sample_serve sample_db (mkRequest GET QuotesRule (inr admin) JNull))
  = sample_db.
Proof.
  exact (get_never_writes Block sample_describe sample_code sample_db
           (mkRequest GET QuotesRule (inr admin) JNull) eq_refl).
Defined.

Lemma failure_leaves_store_unchanged_witness :
  snd (sample_serve sample_db
         (mkRequest DELETE (PersonRule 1) (inr admin) JNull))
  = sample_db.
Proof.
  apply (failure_leaves_store_unchanged Block sample_describe sample_code
           sample_db (mkRequest DELETE (PersonRule 1) (inr admin) JNull)).
  vm_compute. discriminate.
Defined.

Lemma error_500_only_from_body_witness :
  let request := mkRequest POST PersonsRule (inr admin) (JArr []) in
  reads_body (method request) (rule request) = true /\
  is_object (get_json request) = false /\
  exists permission,
    required_permission (method request) (rule request) = Some permission /\
    grants permission request = true.
Proof.
  exact (error_500_only_from_body Block sample_describe sample_code sample_db
           (mkRequest POST PersonsRule (inr admin) (JArr [])) eq_refl).
Defined.

Lemma status_401_only_when_denied_witness :
  let request := mkRequest DELETE (QuoteRule 1) (inr reader) JNull in
  exists permission,
    required_permission (method request) (rule request) = Some permission /\
    grants permission request = false.
Proof.
  exact (status_401_only_when_denied Block sample_describe sample_code
           sample_db (mkRequest DELETE (QuoteRule 1) (inr reader) JNull)
           eq_refl).
Defined.

Lemma body_ignored_by_get_and_delete_witness :
  sample_serve sample_db (mkRequest DELETE (QuoteRule 1) (inr admin) JNull)
  = sample_serve sample_db
      (mkRequest DELETE (QuoteRule 1) (inr admin) (JStr "anything")).
Proof.
  exact (body_ignored_by_get_and_delete Block sample_describe sample_code
           sample_db
           (mkRequest DELETE (QuoteRule 1) (inr admin) JNull)
           (mkRequest DELETE (QuoteRule 1) (inr admin) (JStr "anything"))
           eq_refl eq_refl eq_refl eq_refl).
Defined.

Lemma create_person_null_name_422_witness :
  sample_serve sample_db
    (mkRequest POST PersonsRule (inr admin) (JObj [("name", JNull)]))
  = (unprocessable, sample_db).
Proof.
  exact (create_person_null_name_422 Block sample_describe sample_code
           sample_db
           (mkRequest POST PersonsRule (inr admin) (JObj [("name", JNull)]))
           [("name", JNull)] eq_refl eq_refl eq_refl eq_refl eq_refl).
Defined.

Lemma create_quote_returns_listing_witness :
  sample_serve sample_db
    (mkRequest POST QuotesRule (inr admin)
       (JObj [("title", JStr ""); ("description", JStr "Be");
              ("person_id", JNum 2)]))
  = (JsonResponse 200
       (JObj [("success", JBool true);
              ("created", JNum 2);
              ("quotes",
               JArr [Quote.format (Quote.mk 1 "Do" "Do what you have to do" 1);
                     Quote.format (Quote.mk 2 "" "Be" 2)]);
              ("total_quotes", JNum 2)]),
     mkDB (persons sample_db)
          [Quote.mk 1 "Do" "Do what you have to do" 1; Quote.mk 2 "" "Be" 2]
          3 3).
Proof.
  exact (create_quote_returns_listing Block sample_describe sample_code
           sample_db
           (mkRequest POST QuotesRule (inr admin)
              (JObj [("title", JStr ""); ("description", JStr "Be");
                     ("person_id", JNum 2)]))
           [("title", JStr ""); ("description", JStr "Be");
            ("person_id", JNum 2)] "" "Be" 2
           eq_refl eq_refl eq_refl eq_refl eq_refl eq_refl eq_refl eq_refl).
Defined.

Lemma create_quote_unknown_person_422_witness :
  sample_serve sample_db
    (mkRequest POST QuotesRule (inr admin)
       (JObj [("title", JStr "Do"); ("description", JStr "Be");
              ("person_id", JNum 7)]))
  = (unprocessable, sample_db).
Proof.
  exact (create_quote_unknown_person_422 Block sample_describe sample_code
           sample_db
           (mkRequest POST QuotesRule (inr admin)
              (JObj [("title", JStr "Do"); ("description", JStr "Be");
                     ("person_id", JNum 7)]))
           [("title", JStr "Do"); ("description", JStr "Be");
            ("person_id", JNum 7)] 7
           eq_refl eq_refl eq_refl eq_refl eq_refl eq_refl).
Defined.

Lemma edit_person_unknown_id_404_witness :
  sample_serve sample_db
    (mkRequest PATCH (PersonRule 99999) (inr admin)
       (JObj [("name", JStr "Salah")]))
  = (not_found, sample_db).
Proof.
  exact (edit_person_unknown_id_404 Block sample_describe sample_code
           sample_db
           (mkRequest PATCH (PersonRule 99999) (inr admin)
              (JObj [("name", JStr "Salah")]))
           99999 eq_refl eq_refl eq_refl eq_refl eq_refl).
Defined.

Lemma edit_person_any_name_200_witness :
  sample_serve sample_db
    (mkRequest PATCH (PersonRule 2) (inr admin) (JObj [("name", JNum 5)]))
  = (JsonResponse 200 (JObj [("success", JBool true); ("person_id", JNum 2)]),
     sample_db).
Proof.
  exact (edit_person_any_name_200 Block sample_describe sample_code sample_db
           (mkRequest PATCH (PersonRule 2) (inr admin)
              (JObj [("name", JNum 5)]))
           2 (Person.mk 2 "B") eq_refl eq_refl eq_refl eq_refl eq_refl).
Defined.

Lemma edit_quote_refused_is_atomic_witness :
  sample_serve sample_db
    (mkRequest PATCH (QuoteRule 1) (inr admin)
       (JObj [("title", JStr "X"); ("person_id", JNum 7)]))
  = (unprocessable, sample_db).
Proof.
  refine (proj1 (edit_quote_refused_is_atomic Block sample_describe sample_code
                   sample_db
                   (mkRequest PATCH (QuoteRule 1) (inr admin)
                      (JObj [("title", JStr "X"); ("person_id", JNum 7)]))
                   1 [("title", JStr "X"); ("person_id", JNum 7)]
                   (Quote.mk 1 "Do" "Do what you have to do" 1) 7
                   eq_refl eq_refl eq_refl eq_refl eq_refl eq_refl _ eq_refl)).
  lia.
Defined.

Lemma response_envelope_witness :
  exists fields,
    JObj [("success", JBool false); ("error", JNum 404);
          ("message", JStr "resource not found")] = JObj fields /\
    dict_get "success" fields = JBool (404 =? 200) /\
    In 404 [200; 401; 404; 422] /\
    (404 = 404 \/ 404 = 422 -> dict_get "error" fields = JNum 404).
Proof.
  exact (response_envelope Block sample_describe sample_code sample_db
           (mkRequest DELETE (QuoteRule 99999) (inr admin) JNull)
           404
           (JObj [("success", JBool false); ("error", JNum 404);
                  ("message", JStr "resource not found")])
           eq_refl).
Defined.

Lemma edit_quote_nothing_truthy_noop_witness :
  sample_serve sample_db
    (mkRequest PATCH (QuoteRule 1) (inr admin)
       (JObj [("title", JStr ""); ("person_id", JNum 0)]))
  = (JsonResponse 200 (JObj [("success", JBool true); ("quote_id", JNum 1)]),
     sample_db).
Proof.
  exact (edit_quote_nothing_truthy_noop Block sample_describe sample_code
           sample_db
           (mkRequest PATCH (QuoteRule 1) (inr admin)
              (JObj [("title", JStr ""); ("person_id", JNum 0)]))
           1 [("title", JStr ""); ("person_id", JNum 0)]
           (Quote.mk 1 "Do" "Do what you have to do" 1)
           eq_refl eq_refl eq_refl eq_refl eq_refl eq_refl eq_refl eq_refl).
Defined.

Lemma edit_quote_touches_one_id_witness :
  persons (snd (sample_serve sample_db
                  (mkRequest PATCH (QuoteRule 1) (inr admin)
                     (JObj [("title", JStr "X")]))))
  = persons sample_db.
Proof.
  exact (proj1 (edit_quote_touches_one_id Block sample_describe sample_code
                  sample_db
                  (mkRequest PATCH (QuoteRule 1) (inr admin)
                     (JObj [("title", JStr "X")]))
                  1 eq_refl eq_refl)).
Defined.

Lemma remove_quote_touches_one_id_witness :
  persons (snd (sample_serve sample_db
                  (mkRequest DELETE (QuoteRule 1) (inr admin) JNull)))
  = persons sample_db.
Proof.
  exact (proj1 (remove_quote_touches_one_id Block sample_describe sample_code
                  sample_db
                  (mkRequest DELETE (QuoteRule 1) (inr admin) JNull)
                  1 eq_refl eq_refl)).
Defined.

Lemma remove_person_touches_one_id_witness :
  find_by Person.id 2
    (persons (snd (full_dispatch_request Cascade sample_describe sample_code
                     sample_db
                     (mkRequest DELETE (PersonRule 1) (inr admin) JNull))))
  = find_by Person.id 2 (persons sample_db).
Proof.
  apply (proj1 (remove_person_touches_one_id Cascade sample_describe
                  sample_code sample_db
                  (mkRequest DELETE (PersonRule 1) (inr admin) JNull)
                  1 eq_refl eq_refl)).
  lia.
Defined.

Lemma post_appends_at_most_one_row_witness :
  let request :=
    mkRequest POST PersonsRule (inr admin) (JObj [("name", JStr "Mohamed")]) in
  let d' := snd (sample_serve sample_db request) in
  d' = sample_db \/
  (exists p,
      rule request = PersonsRule /\
      Person.id p = persons_seq sample_db /\
      d' = mkDB (persons sample_db ++ [p]) (quotes sample_db)
                (persons_seq sample_db + 1) (quotes_seq sample_db)) \/
  (exists q,
      rule request = QuotesRule /\
      Quote.id q = quotes_seq sample_db /\
      person_exists (Quote.person_id q) sample_db = true /\
      d' = mkDB (persons sample_db) (quotes sample_db ++ [q])
                (persons_seq sample_db) (quotes_seq sample_db + 1)).
Proof.
  exact (post_appends_at_most_one_row Block sample_describe sample_code
           sample_db
           (mkRequest POST PersonsRule (inr admin)
              (JObj [("name", JStr "Mohamed")]))
           eq_refl).
Defined.

Lemma listing_after_create_witness :
  sample_serve
    (mkDB [Person.mk 2 "B"; Person.mk 1 "A"; Person.mk 3 "Mohamed"]
          (quotes sample_db) 4 2)
    (mkRequest GET PersonsRule (inr reader) JNull)
  = (JsonResponse 200
       (JObj [("success", JBool true);
              ("persons",
               JArr [Person.format (Person.mk 1 "A");
                     Person.format (Person.mk 2 "B");
                     Person.format (Person.mk 3 "Mohamed")]);
              ("total_persons", JNum 3)]),
     mkDB [Person.mk 2 "B"; Person.mk 1 "A"; Person.mk 3 "Mohamed"]
          (quotes sample_db) 4 2).
Proof.
  exact (proj1 (listing_after_create Block sample_describe sample_code
                  sample_db
                  (mkDB [Person.mk 2 "B"; Person.mk 1 "A"; Person.mk 3 "Mohamed"]
                        (quotes sample_db) 4 2)
                  (mkRequest POST PersonsRule (inr admin)
                     (JObj [("name", JStr "Mohamed")]))
                  (mkRequest GET PersonsRule (inr reader) JNull)
                  (JNum 3)
                  (JArr [Person.format (Person.mk 1 "A");
                         Person.format (Person.mk 2 "B");
                         Person.format (Person.mk 3 "Mohamed")])
                  (JNum 3) eq_refl eq_refl)
           eq_refl eq_refl eq_refl eq_refl).
Defined.

Lemma delete_twice_is_404_witness :
  sample_serve (mkDB (persons sample_db) [] 3 2)
    (mkRequest DELETE (QuoteRule 1) (inr admin) JNull)
  = (not_found, mkDB (persons sample_db) [] 3 2).
Proof.
  exact (proj1 (delete_twice_is_404 Block sample_describe sample_code
                  sample_db (mkDB (persons sample_db) [] 3 2)
                  (mkRequest DELETE (QuoteRule 1) (inr admin) JNull)
                  (mkRequest DELETE (QuoteRule 1) (inr admin) JNull)
                  1 (JObj [("success", JBool true); ("id", JNum 1)])
                  eq_refl eq_refl)
           eq_refl eq_refl eq_refl eq_refl).
Defined.

Lemma sample_db_well_formed : well_formed sample_db.
Proof.
  repeat split; simpl.
  - intros p [<- | [<- | []]]; simpl; lia.
  - intros q [<- | []]; simpl; lia.
  - repeat constructor; simpl; intuition discriminate.
  - repeat constructor; simpl; intuition discriminate.
  - intros q [<- | []]. reflexivity.
Defined.

Lemma every_request_keeps_well_formed_witness :
  well_formed
    (snd (full_dispatch_request Cascade sample_describe sample_code sample_db
            (mkRequest DELETE (PersonRule 1) (inr admin) JNull))).
Proof.
  exact (every_request_keeps_well_formed Cascade sample_describe sample_code
           sample_db (mkRequest DELETE (PersonRule 1) (inr admin) JNull)
           sample_db_well_formed).
Defined.

Lemma create_person_then_delete_witness :
  exists d2,
    sample_serve
      (mkDB [Person.mk 2 "B"; Person.mk 1 "A"; Person.mk 3 "Mohamed"]
            (quotes sample_db) 4 2)
      (mkRequest DELETE (PersonRule 3) (inr admin) JNull)
    = (JsonResponse 200 (JObj [("success", JBool true); ("id", JNum 3)]), d2) /\
    persons d2 = persons sample_db /\ quotes d2 = quotes sample_db.
Proof.
  exact (create_person_then_delete Block sample_describe sample_code
           sample_db
           (mkDB [Person.mk 2 "B"; Person.mk 1 "A"; Person.mk 3 "Mohamed"]
                 (quotes sample_db) 4 2)
           (mkRequest POST PersonsRule (inr admin)
              (JObj [("name", JStr "Mohamed")]))
           (mkRequest DELETE (PersonRule 3) (inr admin) JNull)
           3
           (JArr [Person.format (Person.mk 1 "A");
                  Person.format (Person.mk 2 "B");
                  Person.format (Person.mk 3 "Mohamed")])
           (JNum 3)
           sample_db_well_formed eq_refl eq_refl eq_refl eq_refl eq_refl
           eq_refl).
Defined.

Lemma unauthenticated_only_root_witness :
  status_of (fst (sample_serve sample_db
                    (mkRequest GET PersonsRule (inl Expired) JNull))) = 200 <->
  GET = GET /\ PersonsRule = Root.
Proof.
  exact (unauthenticated_only_root Block sample_describe sample_code sample_db
           (mkRequest GET PersonsRule (inl Expired) JNull) Expired eq_refl).
Defined.
